(** * filebrowser-sdk: a shallow embedding of the Go package [filebrowser]

    The package downloads a file from a URL, uploads it to a Filebrowser
    server and creates a share link.  This development embeds

    - [util.go]: [FilebrowserAuth.Validate], [SaveAndShare];
    - the download helpers: [DownloadToLocal], [fileExistsWithSameSize],
      [LocalPathForDownload], [EnsureFolderForFile];
    - the HTTP client: [Client.Validate], [Login], [ensureAuthenticated],
      [Upload], [Share], [GetResource], [DeleteResource].

    Go strings are byte strings and are modelled by [string]; [int64] and
    HTTP status codes are modelled by [Z] (the code only compares them).
    Everything outside the package (HTTP server, file system, the TUS
    library, JSON decoding) is collected in a [World] record of oracles; each
    effectful call is appended to a [History], and an oracle sees the history
    that precedes its call, so a world may answer differently after, say, a
    DELETE request. *)

From Stdlib Require Import ZArith List String Ascii Bool Lia DecimalString.
Import ListNotations.

Local Open Scope string_scope.
Local Open Scope bool_scope.

(** ** Go values *)

(** A Go [(T, error)] pair where the code returns the zero [T] with a
    non-nil error. *)
Inductive Result (A : Type) : Type :=
| Ok (a : A)
| Err (e : string).
Arguments Ok {A} a.
Arguments Err {A} e.

(** A Go [error]: [None] is [nil], [Some msg] carries [err.Error()]. *)
Definition error : Type := option string.

Definition isErr {A} (r : Result A) : bool :=
  match r with Ok _ => false | Err _ => true end.

(** [fmt.Sprintf("%d", n)]. *)
Definition itoa (n : Z) : string := NilZero.string_of_int (Z.to_int n).

(** ** The Go standard library functions the package calls *)

Module strings.

(** [strings.HasPrefix(s, p)]. *)
Definition HasPrefix (s p : string) : bool := String.prefix p s.

(** [strings.TrimPrefix(s, p)]: [s] without one leading [p]. *)
Definition TrimPrefix (s p : string) : string :=
  if String.prefix p s
  then String.substring (String.length p)
                        (String.length s - String.length p) s
  else s.

(** [strings.Cut(s, sep)] for a one-byte separator: the text before and
    after the first [sep], or [None] when [sep] does not occur. *)
Fixpoint Cut (s : string) (sep : ascii) : option (string * string) :=
  match s with
  | EmptyString => None
  | String a r =>
      if Ascii.eqb a sep then Some (EmptyString, r)
      else match Cut r sep with
           | Some (b, t) => Some (String a b, t)
           | None => None
           end
  end.

(** [strings.Cut] at the last occurrence of the separator. *)
Fixpoint CutLast (s : string) (sep : ascii) : option (string * string) :=
  match s with
  | EmptyString => None
  | String a r =>
      match CutLast r sep with
      | Some (b, t) => Some (String a b, t)
      | None => if Ascii.eqb a sep then Some (EmptyString, r) else None
      end
  end.

Fixpoint Count (s : string) (c : ascii) : nat :=
  match s with
  | EmptyString => 0
  | String a r => (if Ascii.eqb a c then 1 else 0) + Count r c
  end.

Definition Contains (s : string) (c : ascii) : bool :=
  negb (Nat.eqb (Count s c) 0).

Fixpoint forallb (p : ascii -> bool) (s : string) : bool :=
  match s with
  | EmptyString => true
  | String a r => p a && forallb p r
  end.

(** [strings.Split(s, "/")]. *)
Fixpoint Split (s : string) (sep : ascii) : list string :=
  match s with
  | EmptyString => [EmptyString]
  | String a r =>
      if Ascii.eqb a sep then EmptyString :: Split r sep
      else match Split r sep with
           | x :: xs => String a x :: xs
           | [] => [String a EmptyString]
           end
  end.

End strings.

(** [path/filepath] on a Unix system (separator [/], no volume names). *)
Module filepath.

Definition Separator : ascii := "/"%char.

Fixpoint cleanSegs (rooted : bool) (stack : list string) (segs : list string)
  : list string :=
  match segs with
  | [] => List.rev stack
  | s :: rest =>
      if (s =? "") || (s =? ".") then cleanSegs rooted stack rest
      else if s =? ".." then
        match stack with
        | top :: below =>
            if top =? ".." then cleanSegs rooted (s :: stack) rest
            else cleanSegs rooted below rest
        | [] =>
            if rooted then cleanSegs rooted [] rest
            else cleanSegs rooted [s] rest
        end
      else cleanSegs rooted (s :: stack) rest
  end.

(** [filepath.Clean]: collapse repeated separators, drop [.] elements,
    resolve inner [..] elements, drop [..] right after the root; the empty
    result is [.]. *)
Definition Clean (path : string) : string :=
  let rooted := strings.HasPrefix path "/" in
  let body := String.concat "/" (cleanSegs rooted [] (strings.Split path Separator)) in
  let out := if rooted then "/" ++ body else body in
  if out =? "" then "." else out.

(** [filepath.Join]: the elements from the first non-empty one on, joined
    by the separator, then cleaned; [""] when every element is empty. *)
Fixpoint Join (elem : list string) : string :=
  match elem with
  | [] => ""
  | e :: rest =>
      if e =? "" then Join rest else Clean (String.concat "/" elem)
  end.

Fixpoint lastNonEmpty (segs : list string) : option string :=
  match segs with
  | [] => None
  | s :: rest =>
      match lastNonEmpty rest with
      | Some x => Some x
      | None => if s =? "" then None else Some s
      end
  end.

(** [filepath.Base]: the last element of the path, trailing separators
    removed first; [.] for the empty path, [/] for a path of separators. *)
Definition Base (path : string) : string :=
  if path =? "" then "."
  else match lastNonEmpty (strings.Split path Separator) with
       | Some s => s
       | None => "/"
       end.

(** The path up to and including its last separator. *)
Fixpoint uptoLastSeparator (path : string) : string :=
  match path with
  | EmptyString => EmptyString
  | String a r =>
      let r' := uptoLastSeparator r in
      if r' =? "" then (if Ascii.eqb a Separator then "/" else "")
      else String a r'
  end.

(** [filepath.Dir]: everything but the last element, cleaned. *)
Definition Dir (path : string) : string := Clean (uptoLastSeparator path).

End filepath.

(** [net/url]: the parser behind [url.Parse], after the Go 1.21 sources.
    The result keeps the fields a caller can read back as text; user
    information and host are validated as the parser does but not stored.
    [None] stands for a non-nil parse error. *)
Module url.

Record URL : Type := mkURL {
  Scheme : string;
  Opaque : string;
  Path : string;
  RawQuery : string;
  Fragment : string
}.

Definition byte (c : ascii) : nat := nat_of_ascii c.

Definition between (lo hi : nat) (c : ascii) : bool :=
  Nat.leb lo (byte c) && Nat.leb (byte c) hi.

Definition isAlpha (c : ascii) : bool := between 65 90 c || between 97 122 c.
Definition isDigit (c : ascii) : bool := between 48 57 c.
Definition ishex (c : ascii) : bool :=
  isDigit c || between 97 102 c || between 65 70 c.

Definition unhex (c : ascii) : nat :=
  if isDigit c then byte c - 48
  else if between 97 102 c then byte c - 97 + 10
  else if between 65 70 c then byte c - 65 + 10
  else 0.

Definition oneOf (set : string) (c : ascii) : bool :=
  strings.Contains set c.

Definition toLower (c : ascii) : ascii :=
  if between 65 90 c then ascii_of_nat (byte c + 32) else c.

Fixpoint ToLower (s : string) : string :=
  match s with
  | EmptyString => EmptyString
  | String c r => String (toLower c) (ToLower r)
  end.

(** [stringContainsCTLByte]. *)
Definition isCTL (c : ascii) : bool :=
  Nat.ltb (byte c) 32 || Nat.eqb (byte c) 127.

Inductive schemeScan : Type :=
| NoScheme
| Found (scheme rest : string)
| MissingScheme.

(** [getScheme]: [atStart] is the test [i == 0] of the loop. *)
Fixpoint scanScheme (atStart : bool) (s : string) : schemeScan :=
  match s with
  | EmptyString => NoScheme
  | String c r =>
      let continue :=
        match scanScheme false r with
        | Found sc rest => Found (String c sc) rest
        | other => other
        end in
      if isAlpha c then continue
      else if isDigit c || oneOf "+-." c then
        (if atStart then NoScheme else continue)
      else if Ascii.eqb c ":" then
        (if atStart then MissingScheme else Found EmptyString r)
      else NoScheme
  end.

Inductive encoding : Type :=
| encodePath | encodeHost | encodeZone | encodeUserPassword | encodeFragment.

(** [shouldEscape(c, encodeHost)]. *)
Definition shouldEscapeHost (c : ascii) : bool :=
  negb (isAlpha c || isDigit c
        || oneOf "!$&'()*+,;=:[]<>" c || Nat.eqb (byte c) 34
        || oneOf "-_.~" c).

Definition is25 (a b : ascii) : bool := Ascii.eqb a "2" && Ascii.eqb b "5".

(** The first pass of [unescape]: every [%] starts a well-formed escape
    and, in host and zone mode, only bytes allowed there occur. *)
Fixpoint wellFormed (mode : encoding) (s : string) : bool :=
  match s with
  | EmptyString => true
  | String c r =>
      if Ascii.eqb c "%" then
        match r with
        | String a (String b rest) =>
            ishex a && ishex b
            && match mode with
               | encodeHost => negb (Nat.ltb (unhex a) 8 && negb (is25 a b))
               | encodeZone =>
                   let v := unhex a * 16 + unhex b in
                   negb (negb (is25 a b) && negb (Nat.eqb v 32)
                         && shouldEscapeHost (ascii_of_nat v))
               | _ => true
               end
            && wellFormed mode rest
        | _ => false
        end
      else
        match mode with
        | encodeHost | encodeZone =>
            negb (Nat.ltb (byte c) 128 && shouldEscapeHost c)
        | _ => true
        end
        && wellFormed mode r
  end.

(** The second pass of [unescape] in path and fragment mode. *)
Fixpoint decode (s : string) : string :=
  match s with
  | EmptyString => EmptyString
  | String c r =>
      if Ascii.eqb c "%" then
        match r with
        | String a (String b rest) =>
            String (ascii_of_nat (unhex a * 16 + unhex b)) (decode rest)
        | _ => String c (decode r)
        end
      else String c (decode r)
  end.

Definition unescape (s : string) (mode : encoding) : option string :=
  if wellFormed mode s then Some (decode s) else None.

Definition validOptionalPort (port : string) : bool :=
  match port with
  | EmptyString => true
  | String c r => Ascii.eqb c ":" && strings.forallb isDigit r
  end.

(** The text before the first [%25] and the text from it on. *)
Fixpoint cutZone (s : string) : option (string * string) :=
  match s with
  | EmptyString => None
  | String c r =>
      if strings.HasPrefix s "%25" then Some (EmptyString, s)
      else match cutZone r with
           | Some (b, t) => Some (String c b, t)
           | None => None
           end
  end.

(** [parseHost], as a test that it returns no error. *)
Definition parseHost (host : string) : bool :=
  if strings.HasPrefix host "[" then
    match strings.CutLast host "]" with
    | None => false
    | Some (before, colonPort) =>
        validOptionalPort colonPort
        && match cutZone before with
           | Some (host1, host2) =>
               wellFormed encodeHost host1 && wellFormed encodeZone host2
               && wellFormed encodeHost ("]" ++ colonPort)
           | None => wellFormed encodeHost host
           end
    end
  else
    match strings.CutLast host ":" with
    | Some (_, port) => validOptionalPort (":" ++ port)
    | None => true
    end
    && wellFormed encodeHost host.

Definition validUserinfo (s : string) : bool :=
  strings.forallb
    (fun c => isAlpha c || isDigit c || oneOf "-._:~!$&'()*+,;=%@" c) s.

(** [parseAuthority], as a test that it returns no error. *)
Definition parseAuthority (authority : string) : bool :=
  match strings.CutLast authority "@" with
  | None => parseHost authority
  | Some (userinfo, host) =>
      parseHost host && validUserinfo userinfo
      && match strings.Cut userinfo ":" with
         | None => wellFormed encodeUserPassword userinfo
         | Some (username, password) =>
             wellFormed encodeUserPassword username
             && wellFormed encodeUserPassword password
         end
  end.

Definition setPath (u : URL) (p : string) : option URL :=
  match unescape p encodePath with
  | Some path => Some (mkURL (Scheme u) (Opaque u) path (RawQuery u) (Fragment u))
  | None => None
  end.

(** [parse(rawURL, viaRequest = false)]; [ForceQuery] is not recorded, so
    a lone trailing [?] is cut like any other. *)
Definition parse (rawURL : string) : option URL :=
  if negb (strings.forallb (fun c => negb (isCTL c)) rawURL) then None
  else if rawURL =? "*" then Some (mkURL "" "" "*" "" "")
  else
    match scanScheme true rawURL with
    | MissingScheme => None
    | scan =>
        let '(scheme, rest) :=
          match scan with
          | Found sc r => (ToLower sc, r)
          | _ => (EmptyString, rawURL)
          end in
        let '(rest, query) :=
          match strings.Cut rest "?" with
          | Some (before, after) => (before, after)
          | None => (rest, EmptyString)
          end in
        let u := mkURL scheme "" "" query "" in
        if negb (strings.HasPrefix rest "/") && negb (scheme =? "") then
          Some (mkURL scheme rest "" query "")
        else if negb (strings.HasPrefix rest "/")
                && strings.Contains
                     (match strings.Cut rest "/" with
                      | Some (segment, _) => segment
                      | None => rest
                      end) ":" then None
        else if (negb (scheme =? "") || negb (strings.HasPrefix rest "///"))
                && strings.HasPrefix rest "//" then
          let '(authority, rest) :=
            match strings.Cut (strings.TrimPrefix rest "//") "/" with
            | Some (a, p) => (a, "/" ++ p)
            | None => (strings.TrimPrefix rest "//", EmptyString)
            end in
          if parseAuthority authority then setPath u rest else None
        else setPath u rest
    end.

(** [url.Parse]: the fragment is cut off first and unescaped last. *)
Definition Parse (rawURL : string) : option URL :=
  let '(u, frag) :=
    match strings.Cut rawURL "#" with
    | Some (before, after) => (before, after)
    | None => (rawURL, EmptyString)
    end in
  match parse u with
  | None => None
  | Some parsed =>
      if frag =? "" then Some parsed
      else match unescape frag encodeFragment with
           | Some f => Some (mkURL (Scheme parsed) (Opaque parsed) (Path parsed)
                                   (RawQuery parsed) f)
           | None => None
           end
  end.

End url.

(** ** Data model of the package

    Each Go struct is a record in a module of its name, so that fields keep
    their Go names ([Client.Token], [ShareParams.Expires], ...). *)

(** [ShareParams] (util.go). *)
Module ShareParams.
Record t : Type := mk {
  Expires : Z;
  Password : string;
  Unit : string
}.
End ShareParams.

(** [ActionParams] (util.go). *)
Module ActionParams.
Record t : Type := mk {
  ShareParams : ShareParams.t;
  FileSize : Z;
  Force : bool
}.
End ActionParams.

(** [ShareResult] (util.go). *)
Module ShareResult.
Record t : Type := mk {
  ViewUrl : string;
  DownloadUrl : string
}.
End ShareResult.

(** [FilebrowserAuth] and its method [Validate] (util.go). *)
Module FilebrowserAuth.
Record t : Type := mk {
  URL : string;
  Username : string;
  Password : string
}.

Definition Validate (auth : t) : error :=
  if URL auth =? "" then Some "URL cannot be empty"
  else if Username auth =? "" then Some "username cannot be empty"
  else if Password auth =? "" then Some "password cannot be empty"
  else None.
End FilebrowserAuth.

(** [ReqLogin]: the body of the login request. *)
Module ReqLogin.
Record t : Type := mk {
  Username : string;
  Password : string
}.
End ReqLogin.

(** [ReqShare]: the body of the share request; [zero] is [ReqShare{}]. *)
Module ReqShare.
Record t : Type := mk {
  Expires : string;
  Password : string;
  Unit : string
}.
Definition zero : t := mk "" "" "".
End ReqShare.

(** [RespResource]; [zero] is the value of [var result RespResource].
    Every field carries a [json] tag, [NotExist] the tag [not_exist], so the
    decoder fills all of them from the response body. *)
Module RespResource.
Record t : Type := mk {
  NotExist : bool;
  Path : string;
  Name : string;
  Size : Z;
  Extension : string;
  Modified : string;
  Mode : Z;
  IsDir : string;
  IsSymlink : string;
  Type_ : string
}.
Definition zero : t := mk false "" "" 0%Z "" "" 0%Z "" "" "".
End RespResource.

(** [RespShare]. *)
Module RespShare.
Record t : Type := mk {
  Hash : string;
  Path : string
}.
Definition zero : t := mk "" "".
End RespShare.

(** [Client]: [ReqLogin] is an embedded struct, so [c.Username] of the Go
    code is [ReqLogin.Username (Client.ReqLogin c)]. *)
Module Client.
Record t : Type := mk {
  URL : string;
  ReqLogin : ReqLogin.t;
  Token : string
}.

Definition Username (c : t) : string := ReqLogin.Username (ReqLogin c).
Definition Password (c : t) : string := ReqLogin.Password (ReqLogin c).

(** The assignment [c.Token = v]. *)
Definition setToken (c : t) (v : string) : t := mk (URL c) (ReqLogin c) v.

Definition Validate (c : t) : error :=
  if URL c =? "" then Some "URL cannot be empty"
  else if Username c =? "" then Some "username cannot be empty"
  else if Password c =? "" then Some "password cannot be empty"
  else None.
End Client.

(** ** The outside world *)

Inductive Method : Type := GET | POST | DELETE.

(** What [SetBody] was given. *)
Inductive Body : Type :=
| NoBody
| LoginBody (b : ReqLogin.t)
| ShareBody (b : ReqShare.t).

(** A request built with [req]: method, URL, the [X-Auth] header when
    [SetHeader] was called, and the body. *)
Module Request.
Record t : Type := mk {
  Method : Method;
  URL : string;
  XAuth : option string;
  Body : Body
}.
End Request.

(** A response: [resp.StatusCode] and the text [resp.String()]. *)
Module Response.
Record t : Type := mk {
  StatusCode : Z;
  Body : string
}.
End Response.

(** The effectful calls the package makes, in the order it makes them. *)
Inductive Call : Type :=
| CallHTTP (r : Request.t)
| CallStat (path : string)
| CallOpen (path : string)
| CallTusNewUpload (path : string)
| CallTusCreateUpload (url token path : string)
| CallTusUpload (url token path : string)
| CallIsExist (path : string)
| CallFileSize (path : string)
| CallCreateDir (dir : string)
| CallDownloadFile (localPath fileURL : string).

Definition History : Type := list Call.

(** The collaborators of the package.  An oracle that takes a [History] is
    given the calls made before it.

    - [TempDir]: [os.TempDir()];
    - [httpDo]: sending a request; [Err] is a transport error;
    - [unmarshalResource], [unmarshalShare]: what [SetSuccessResult] stores
      in its target for a response in success state, or the error of the
      decoder;
    - [osStatIsNotExist]: [os.IsNotExist(err)] for the error of [os.Stat];
    - [osOpen]: [os.Open];
    - [tusNewClient], [tusNewUploadFromFile], [tusCreateUpload], [tusUpload]:
      the steps of the go-tus library;
    - [fileutilIsExist], [fileutilFileSize], [fileutilCreateDir],
      [netutilDownloadFile]: the lancet helpers. *)
Record World : Type := mkWorld {
  TempDir : string;
  httpDo : History -> Request.t -> Result Response.t;
  unmarshalResource : Response.t -> Result RespResource.t;
  unmarshalShare : Response.t -> Result RespShare.t;
  osStatIsNotExist : History -> string -> bool;
  osOpen : History -> string -> error;
  tusNewClient : string -> string -> error;
  tusNewUploadFromFile : History -> string -> error;
  tusCreateUpload : History -> string -> string -> string -> error;
  tusUpload : History -> string -> string -> string -> error;
  fileutilIsExist : History -> string -> bool;
  fileutilFileSize : History -> string -> Result Z;
  fileutilCreateDir : History -> string -> error;
  netutilDownloadFile : History -> string -> string -> error
}.

(** ** The monad of calls: a state monad over the history *)

Definition M (A : Type) : Type := History -> A * History.

Definition ret {A : Type} (a : A) : M A := fun h => (a, h).

Definition bind {A B : Type} (m : M A) (f : A -> M B) : M B :=
  fun h => let r := m h in f (fst r) (snd r).

(** Make the call [c]; its answer is computed from the history so far. *)
Definition call {A : Type} (c : Call) (oracle : History -> A) : M A :=
  fun h => (oracle h, (h ++ [c])%list).

Declare Scope go_scope.
Delimit Scope go_scope with go.
Notation "x <- m ;; k" := (bind m (fun x => k))
  (at level 61, m at next level, right associativity) : go_scope.
Notation "' p <- m ;; k" := (bind m (fun p => k))
  (at level 61, p pattern, m at next level, right associativity) : go_scope.
Local Open Scope go_scope.

(** ** The package *)

Section Package.

Variable w : World.

(** *** The download helpers *)

(** [convertor.ToInt] of lancet on an [int64] argument: the value itself,
    never an error. *)
Definition convertorToInt (v : Z) : Result Z := Ok v.

(** [fileExistsWithSameSize]. *)
Definition fileExistsWithSameSize (localPath : string) (expectedSize : Z)
  : M bool :=
  exist <- call (CallIsExist localPath) (fun h => fileutilIsExist w h localPath) ;;
  if negb exist then ret false
  else
    size <- call (CallFileSize localPath) (fun h => fileutilFileSize w h localPath) ;;
    match size with
    | Err _ => ret false
    | Ok localSize =>
        match convertorToInt expectedSize with
        | Err _ => ret false
        | Ok expectedSizeInt => ret (localSize =? expectedSizeInt)%Z
        end
    end.

(** The condition of the cache test in [DownloadToLocal],
    [fileSize > 0 && fileExistsWithSameSize(localPath, fileSize)]: the
    right operand of [&&] is not evaluated when the left one is false. *)
Definition localCacheCheck (localPath : string) (fileSize : Z) : M bool :=
  if (0 <? fileSize)%Z then fileExistsWithSameSize localPath fileSize
  else ret false.

(** [LocalPathForDownload]. *)
Definition LocalPathForDownload (fileURL : string) : string :=
  match url.Parse fileURL with
  | None => filepath.Join [TempDir w; filepath.Base fileURL]
  | Some parsedURL =>
      let path := strings.TrimPrefix (url.Path parsedURL) "/" in
      let path := if path =? "" then "downloaded_file" else path in
      filepath.Join [TempDir w; path]
  end.

(** [EnsureFolderForFile]. *)
Definition EnsureFolderForFile (localPath : string) : M error :=
  if localPath =? "" then ret (Some "local path cannot be empty")
  else
    let dir := filepath.Dir localPath in
    err <- call (CallCreateDir dir) (fun h => fileutilCreateDir w h dir) ;;
    match err with
    | Some e => ret (Some ("failed to create directory " ++ dir ++ ": " ++ e))
    | None => ret None
    end.

(** [DownloadToLocal]. *)
Definition DownloadToLocal (fileURL : string) (fileSize : Z)
  : M (Result string) :=
  if fileURL =? "" then ret (Err "file URL cannot be empty")
  else
    let localPath := LocalPathForDownload fileURL in
    err <- EnsureFolderForFile localPath ;;
    match err with
    | Some e => ret (Err ("failed to create directory for file: " ++ e))
    | None =>
        cached <- localCacheCheck localPath fileSize ;;
        if cached then ret (Ok localPath)
        else
          err <- call (CallDownloadFile localPath fileURL)
                      (fun h => netutilDownloadFile w h localPath fileURL) ;;
          match err with
          | Some e =>
              ret (Err ("failed to download file from " ++ fileURL ++ ": " ++ e))
          | None => ret (Ok localPath)
          end
    end.

(** *** The client *)

(** Sending a request built without [SetSuccessResult]. *)
Definition send (r : Request.t) : M (Result Response.t) :=
  call (CallHTTP r) (fun h => httpDo w h r).

(** The success state of [req]: a status code from 200 to 299. *)
Definition isSuccessState (resp : Response.t) : bool :=
  ((200 <=? Response.StatusCode resp) && (Response.StatusCode resp <=? 299))%Z.

(** Sending a request built with [SetSuccessResult(&result)]: in success
    state the body is decoded into [result], and a decoding error is the
    error of the request; otherwise [result] keeps its zero value. *)
Definition sendInto {T : Type} (unmarshal : Response.t -> Result T) (zero : T)
    (r : Request.t) : M (Result (Response.t * T)) :=
  x <- send r ;;
  ret match x with
      | Err e => Err e
      | Ok resp =>
          if isSuccessState resp then
            match unmarshal resp with
            | Ok v => Ok (resp, v)
            | Err e => Err e
            end
          else Ok (resp, zero)
      end.

Definition loginRequest (c : Client.t) : Request.t :=
  Request.mk POST (Client.URL c ++ "/api/login") None
             (LoginBody (ReqLogin.mk (Client.Username c) (Client.Password c))).

(** [Login]. *)
Definition Login (c : Client.t) : M (error * Client.t) :=
  match Client.Validate c with
  | Some e => ret (Some ("invalid client configuration: " ++ e), c)
  | None =>
      r <- send (loginRequest c) ;;
      match r with
      | Err e => ret (Some ("login request failed: " ++ e), c)
      | Ok resp =>
          if negb (Response.StatusCode resp =? 200)%Z then
            ret (Some ("login failed with status code: "
                       ++ itoa (Response.StatusCode resp)), c)
          else
            let c := Client.setToken c (Response.Body resp) in
            if Client.Token c =? "" then
              ret (Some "received empty token from server", c)
            else ret (None, c)
      end
  end.

(** [ensureAuthenticated]. *)
Definition ensureAuthenticated (c : Client.t) : M (error * Client.t) :=
  if Client.Token c =? "" then Login c else ret (None, c).

(** [Upload].  The deferred [file.Close()] is not recorded. *)
Definition Upload (c : Client.t) (localPath remotePath : string)
  : M (error * Client.t) :=
  if localPath =? "" then ret (Some "local path cannot be empty", c)
  else if remotePath =? "" then ret (Some "remote path cannot be empty", c)
  else
    notExist <- call (CallStat localPath) (fun h => osStatIsNotExist w h localPath) ;;
    if notExist then ret (Some ("local file does not exist: " ++ localPath), c)
    else
      '(err, c) <- ensureAuthenticated c ;;
      match err with
      | Some e => ret (Some ("authentication failed: " ++ e), c)
      | None =>
          let tusURL := Client.URL c ++ "/api/tus/" ++ remotePath in
          let token := Client.Token c in
          match tusNewClient w tusURL token with
          | Some e => ret (Some ("failed to create TUS client: " ++ e), c)
          | None =>
          err <- call (CallOpen localPath) (fun h => osOpen w h localPath) ;;
          match err with
          | Some e => ret (Some ("failed to open local file: " ++ e), c)
          | None =>
          err <- call (CallTusNewUpload localPath)
                      (fun h => tusNewUploadFromFile w h localPath) ;;
          match err with
          | Some e => ret (Some ("failed to create upload from file: " ++ e), c)
          | None =>
          err <- call (CallTusCreateUpload tusURL token localPath)
                      (fun h => tusCreateUpload w h tusURL token localPath) ;;
          match err with
          | Some e => ret (Some ("failed to create upload: " ++ e), c)
          | None =>
          err <- call (CallTusUpload tusURL token localPath)
                      (fun h => tusUpload w h tusURL token localPath) ;;
          match err with
          | Some e => ret (Some ("upload failed: " ++ e), c)
          | None => ret (None, c)
          end end end end end
      end.

Definition shareRequest (c : Client.t) (remotePath : string) (body : ReqShare.t)
  : Request.t :=
  Request.mk POST (Client.URL c ++ "/api/share/" ++ remotePath)
             (Some (Client.Token c)) (ShareBody body).

(** [Share]. *)
Definition Share (c : Client.t) (remotePath : string) (expires : Z)
    (password unit : string) : M (Result string * Client.t) :=
  if remotePath =? "" then ret (Err "remote path cannot be empty", c)
  else
    '(err, c) <- ensureAuthenticated c ;;
    match err with
    | Some e => ret (Err ("authentication failed: " ++ e), c)
    | None =>
        let body := ReqShare.zero in
        let body :=
          if (0 <? expires)%Z
          then ReqShare.mk (itoa expires) password unit
          else body in
        r <- sendInto (unmarshalShare w) RespShare.zero
                      (shareRequest c remotePath body) ;;
        match r with
        | Err e => ret (Err ("share request failed: " ++ e), c)
        | Ok (resp, result) =>
            if negb (Response.StatusCode resp =? 200)%Z then
              ret (Err ("share request failed with status code: "
                        ++ itoa (Response.StatusCode resp)), c)
            else if RespShare.Hash result =? "" then
              ret (Err "received empty hash from server", c)
            else ret (Ok (RespShare.Hash result), c)
        end
    end.

Definition resourceURL (c : Client.t) (remotePath : string) : string :=
  Client.URL c ++ "/api/resources/" ++ remotePath.

Definition getRequest (c : Client.t) (remotePath : string) : Request.t :=
  Request.mk GET (resourceURL c remotePath) (Some (Client.Token c)) NoBody.

Definition deleteRequest (c : Client.t) (remotePath : string) : Request.t :=
  Request.mk DELETE (resourceURL c remotePath) (Some (Client.Token c)) NoBody.

(** [&RespResource{NotExist: true}]. *)
Definition notExistResource : RespResource.t :=
  RespResource.mk true "" "" 0%Z "" "" 0%Z "" "" "".

(** [GetResource]. *)
Definition GetResource (c : Client.t) (remotePath : string)
  : M (Result RespResource.t * Client.t) :=
  if remotePath =? "" then ret (Err "remote path cannot be empty", c)
  else
    '(err, c) <- ensureAuthenticated c ;;
    match err with
    | Some e => ret (Err ("authentication failed: " ++ e), c)
    | None =>
        r <- sendInto (unmarshalResource w) RespResource.zero
                      (getRequest c remotePath) ;;
        match r with
        | Err e => ret (Err ("resource request failed: " ++ e), c)
        | Ok (resp, result) =>
            if (Response.StatusCode resp =? 404)%Z then
              ret (Ok notExistResource, c)
            else if negb (Response.StatusCode resp =? 200)%Z then
              ret (Err ("resource request failed with status code: "
                        ++ itoa (Response.StatusCode resp)), c)
            else ret (Ok result, c)
        end
    end.

(** [DeleteResource]. *)
Definition DeleteResource (c : Client.t) (remotePath : string)
  : M (error * Client.t) :=
  if remotePath =? "" then ret (Some "remote path cannot be empty", c)
  else
    '(err, c) <- ensureAuthenticated c ;;
    match err with
    | Some e => ret (Some ("authentication failed: " ++ e), c)
    | None =>
        r <- send (deleteRequest c remotePath) ;;
        match r with
        | Err e => ret (Some ("delete request failed: " ++ e), c)
        | Ok resp =>
            if negb (Response.StatusCode resp =? 200)%Z
               && negb (Response.StatusCode resp =? 404)%Z then
              ret (Some ("delete request failed with status code: "
                         ++ itoa (Response.StatusCode resp)), c)
            else ret (None, c)
        end
    end.

(** *** The orchestrator *)

(** The client [SaveAndShare] builds from the credentials. *)
Definition newClient (auth : FilebrowserAuth.t) : Client.t :=
  Client.mk (FilebrowserAuth.URL auth)
            (ReqLogin.mk (FilebrowserAuth.Username auth)
                         (FilebrowserAuth.Password auth))
            "".

(** [SaveAndShare].  [remotePathFn] is a Go function value: [None] is
    [nil]. *)
Definition SaveAndShare (auth : FilebrowserAuth.t) (externalURL : string)
    (remotePathFn : option (string -> string)) (actionParams : ActionParams.t)
  : M (Result ShareResult.t) :=
  match FilebrowserAuth.Validate auth with
  | Some e => ret (Err ("invalid authentication: " ++ e))
  | None =>
  if externalURL =? "" then ret (Err "external URL cannot be empty")
  else
  match remotePathFn with
  | None => ret (Err "remote path function cannot be nil")
  | Some remotePathFn =>
  r <- DownloadToLocal externalURL (ActionParams.FileSize actionParams) ;;
  match r with
  | Err e => ret (Err ("failed to download file: " ++ e))
  | Ok localPath =>
  let name := filepath.Base localPath in
  let remotePath := remotePathFn name in
  if remotePath =? "" then ret (Err "remote path cannot be empty")
  else
  let client := newClient auth in
  '(r, client) <- GetResource client remotePath ;;
  match r with
  | Err e => ret (Err ("failed to get resource info: " ++ e))
  | Ok resourceRet =>
  '(r, client) <-
    (if negb (RespResource.NotExist resourceRet) then
       if ActionParams.Force actionParams then
         '(err, client) <- DeleteResource client remotePath ;;
         match err with
         | Some e => ret (Err ("failed to delete existing resource: " ++ e), client)
         | None => ret (Ok true, client)
         end
       else if (0 <? ActionParams.FileSize actionParams)%Z
               && negb (RespResource.Size resourceRet
                        =? ActionParams.FileSize actionParams)%Z then
         '(err, client) <- DeleteResource client remotePath ;;
         match err with
         | Some e => ret (Err ("failed to delete mismatched resource: " ++ e), client)
         | None => ret (Ok true, client)
         end
       else ret (Ok false, client)
     else ret (Ok true, client)) ;;
  match r with
  | Err e => ret (Err e)
  | Ok shouldUpload =>
  '(err, client) <-
    (if shouldUpload : bool then Upload client localPath remotePath
     else ret (None, client)) ;;
  match err with
  | Some e => ret (Err ("failed to upload file: " ++ e))
  | None =>
  let sp := ActionParams.ShareParams actionParams in
  '(r, client) <- Share client remotePath (ShareParams.Expires sp)
                        (ShareParams.Password sp) (ShareParams.Unit sp) ;;
  match r with
  | Err e => ret (Err ("failed to create share: " ++ e))
  | Ok hash =>
      ret (Ok (ShareResult.mk (Client.URL client ++ "/share/" ++ hash)
                              (Client.URL client ++ "/api/public/dl/" ++ hash)))
  end end end end end end end.

End Package.

(** ** The synchronization policy as a decision table

    The specification describes the policy of [SaveAndShare] as a pure
    function from (resource exists, force flag, expected size, remote size)
    to one of three actions.  [syncPolicy] is that table, written from the
    specification; [runAction] is what each action stands for.  The theorems
    below compare them with [SaveAndShare]. *)

Inductive Action : Type :=
| ActSkip
| ActDeleteThenUpload
| ActUpload.

Definition syncPolicy (exists_ force : bool) (expectedSize remoteSize : Z)
  : Action :=
  if negb exists_ then ActUpload
  else if force then ActDeleteThenUpload
  else if (expectedSize <=? 0)%Z || (expectedSize =? remoteSize)%Z then ActSkip
  else ActDeleteThenUpload.

(** The last stage of [SaveAndShare]: create the share and build the URLs. *)
Definition shareStage (w : World) (c : Client.t) (remotePath : string)
    (actionParams : ActionParams.t) : M (Result ShareResult.t) :=
  let sp := ActionParams.ShareParams actionParams in
  '(r, c) <- Share w c remotePath (ShareParams.Expires sp)
                   (ShareParams.Password sp) (ShareParams.Unit sp) ;;
  match r with
  | Err e => ret (Err ("failed to create share: " ++ e))
  | Ok hash =>
      ret (Ok (ShareResult.mk (Client.URL c ++ "/share/" ++ hash)
                              (Client.URL c ++ "/api/public/dl/" ++ hash)))
  end.

(** Upload, then share. *)
Definition uploadStage (w : World) (c : Client.t) (localPath remotePath : string)
    (actionParams : ActionParams.t) : M (Result ShareResult.t) :=
  '(err, c) <- Upload w c localPath remotePath ;;
  match err with
  | Some e => ret (Err ("failed to upload file: " ++ e))
  | None => shareStage w c remotePath actionParams
  end.

(** Delete, then upload, then share; [context] is the text put before the
    error of a failed delete. *)
Definition deleteStage (w : World) (context : string) (c : Client.t)
    (localPath remotePath : string) (actionParams : ActionParams.t)
  : M (Result ShareResult.t) :=
  '(err, c) <- DeleteResource w c remotePath ;;
  match err with
  | Some e => ret (Err (context ++ e))
  | None => uploadStage w c localPath remotePath actionParams
  end.

Definition runAction (w : World) (a : Action) (c : Client.t)
    (localPath remotePath : string) (actionParams : ActionParams.t)
  : M (Result ShareResult.t) :=
  match a with
  | ActSkip => shareStage w c remotePath actionParams
  | ActUpload => uploadStage w c localPath remotePath actionParams
  | ActDeleteThenUpload =>
      deleteStage w
        (if ActionParams.Force actionParams
         then "failed to delete existing resource: "
         else "failed to delete mismatched resource: ")
        c localPath remotePath actionParams
  end.

(** ** A client lifetime: sequences of authenticated operations *)

Inductive Op : Type :=
| OpUpload (localPath remotePath : string)
| OpShare (remotePath : string) (expires : Z) (password unit : string)
| OpGetResource (remotePath : string)
| OpDeleteResource (remotePath : string).

(** One operation on the client; the result is dropped, the client kept. *)
Definition runOp (w : World) (op : Op) (c : Client.t) : M Client.t :=
  match op with
  | OpUpload localPath remotePath =>
      r <- Upload w c localPath remotePath ;; ret (snd r)
  | OpShare remotePath expires password unit =>
      r <- Share w c remotePath expires password unit ;; ret (snd r)
  | OpGetResource remotePath =>
      r <- GetResource w c remotePath ;; ret (snd r)
  | OpDeleteResource remotePath =>
      r <- DeleteResource w c remotePath ;; ret (snd r)
  end.

Fixpoint runOps (w : World) (ops : list Op) (c : Client.t) : M Client.t :=
  match ops with
  | [] => ret c
  | op :: rest => c <- runOp w op c ;; runOps w rest c
  end.

(** The login exchange in a history: the request whose body is [ReqLogin]. *)
Definition isLogin (c : Call) : bool :=
  match c with
  | CallHTTP r =>
      match Request.Body r with
      | LoginBody _ => true
      | _ => false
      end
  | _ => false
  end.

Definition logins (h : History) : nat := List.length (List.filter isLogin h).

(** A call made on behalf of an authenticated operation carries a token:
    the [X-Auth] header of a request, the header of the TUS configuration. *)
Definition carriesToken (c : Call) : bool :=
  match c with
  | CallHTTP r =>
      match Request.XAuth r with
      | Some token => negb (token =? "")
      | None => true
      end
  | CallTusCreateUpload _ token _ | CallTusUpload _ token _ => negb (token =? "")
  | _ => true
  end.

(** ** Sample worlds

    A Filebrowser server with fixed answers, and a file system with one
    answer for every path. *)

Record Scenario : Type := mkScenario {
  loginStatus : Z;
  resourceStatus : Z;
  resource : RespResource.t;
  deleteStatus : Z;
  localFile : option Z
}.

Definition scenarioWorld (s : Scenario) : World :=
  mkWorld "/tmp"
    (fun _ r =>
       match Request.Method r, Request.Body r with
       | POST, LoginBody _ => Ok (Response.mk (loginStatus s) "secret-token")
       | POST, _ => Ok (Response.mk 200 "share-json")
       | GET, _ => Ok (Response.mk (resourceStatus s) "resource-json")
       | DELETE, _ => Ok (Response.mk (deleteStatus s) "")
       end)
    (fun _ => Ok (resource s))
    (fun _ => Ok (RespShare.mk "Ab3dE" "/uploads/a.pdf"))
    (fun _ _ => false)
    (fun _ _ => None)
    (fun _ _ => None)
    (fun _ _ => None)
    (fun _ _ _ _ => None)
    (fun _ _ _ _ => None)
    (fun _ _ => match localFile s with Some _ => true | None => false end)
    (fun _ _ => match localFile s with
                | Some n => Ok n
                | None => Err "no such file"
                end)
    (fun _ _ => None)
    (fun _ _ _ => None).

Definition remoteFile (size : Z) : RespResource.t :=
  RespResource.mk false "/uploads/a.pdf" "a.pdf" size ".pdf" "" 420%Z "" "" "pdf".

Definition sampleAuth : FilebrowserAuth.t :=
  FilebrowserAuth.mk "https://fb.example" "user" "pass".

Definition sampleClient : Client.t := newClient sampleAuth.

Definition sampleRemotePathFn (name : string) : string := "uploads/" ++ name.

(** The server holds [uploads/a.pdf] with 100 bytes; nothing is cached
    locally. *)
Definition worldPresent : World :=
  scenarioWorld (mkScenario 200 200 (remoteFile 100) 200 None).

(** The server answers 404 to the metadata request. *)
Definition worldAbsent : World :=
  scenarioWorld (mkScenario 200 404 RespResource.zero 200 None).

(** The server rejects every login with status 500. *)
Definition worldLoginFails : World :=
  scenarioWorld (mkScenario 500 200 (remoteFile 100) 200 None).

(** The server answers 200 to the metadata request with a body whose
    [not_exist] member is true. *)
Definition markedResource : RespResource.t :=
  RespResource.mk true "/uploads/a.pdf" "a.pdf" 100%Z ".pdf" "" 420%Z "" "" "pdf".

Definition worldMarkedNotExist : World :=
  scenarioWorld (mkScenario 200 200 markedResource 200 None).

(** An empty file exists at every local path. *)
Definition worldEmptyLocalFile : World :=
  scenarioWorld (mkScenario 200 404 RespResource.zero 200 (Some 0%Z)).

(** The client once the sample server has accepted its login. *)
Definition authenticatedClient : Client.t :=
  Client.setToken sampleClient "secret-token".

(** Expected size 5 where the server holds 100 bytes; a share for 24 hours. *)
Definition mismatchParams : ActionParams.t :=
  ActionParams.mk (ShareParams.mk 24 "" "hours") 5 false.

(** ** What an operation may do to a client and a history

    [Guarded c h c' h'] relates the client and history before an operation
    to those after it: the history only grows; every call added carries a
    token where it has a place for one; at most one login exchange is added;
    the configuration of the client is kept; and when a token was held the
    client is unchanged and no login exchange is added. *)
Definition Guarded (c : Client.t) (h : History) (c' : Client.t) (h' : History)
  : Prop :=
  exists new : History,
    h' = (h ++ new)%list
    /\ List.forallb carriesToken new = true
    /\ logins new <= 1
    /\ Client.URL c' = Client.URL c
    /\ Client.ReqLogin c' = Client.ReqLogin c
    /\ (Client.Token c <> "" -> c' = c /\ logins new = 0).

(** ** Further sample worlds *)

(** A file of 5 bytes exists at every local path. *)
Definition worldCached : World :=
  scenarioWorld (mkScenario 200 404 RespResource.zero 200 (Some 5%Z)).


(** [w] with a source that cannot be fetched. *)
Definition withFailingDownload (w : World) : World :=
  mkWorld (TempDir w) (httpDo w) (unmarshalResource w) (unmarshalShare w)
          (osStatIsNotExist w) (osOpen w) (tusNewClient w)
          (tusNewUploadFromFile w) (tusCreateUpload w) (tusUpload w)
          (fileutilIsExist w) (fileutilFileSize w) (fileutilCreateDir w)
          (fun _ _ _ => Some "connection refused").

(** [w] with no file at any local path, as [os.Stat] sees it. *)
Definition withMissingLocalFile (w : World) : World :=
  mkWorld (TempDir w) (httpDo w) (unmarshalResource w) (unmarshalShare w)
          (fun _ _ => true) (osOpen w) (tusNewClient w)
          (tusNewUploadFromFile w) (tusCreateUpload w) (tusUpload w)
          (fileutilIsExist w) (fileutilFileSize w) (fileutilCreateDir w)
          (netutilDownloadFile w).

(** A client whose URL was left empty. *)
Definition clientWithoutURL : Client.t :=
  Client.mk "" (ReqLogin.mk "user" "pass") "".

(** A remote path function that returns the empty path. *)
Definition emptyRemotePathFn (name : string) : string := "".




Definition isDelete (c : Call) : bool :=
  match c with
  | CallHTTP r =>
      match Request.Method r with
      | DELETE => true
      | _ => false
      end
  | _ => false
  end.

(** [Without p h h'] says that [h'] extends [h] by calls none of which
    satisfies [p]. *)
Definition Without (p : Call -> bool) (h h' : History) : Prop :=
  exists new : History,
    h' = (h ++ new)%list /\ List.forallb (fun x => negb (p x)) new = true.

(** ** Histories without a login

    [Quiet h h'] says that [h'] extends [h] by calls that carry their token
    and among which there is no login exchange. *)
Definition Quiet (h h' : History) : Prop :=
  exists new : History,
    h' = (h ++ new)%list
    /\ List.forallb carriesToken new = true
    /\ logins new = 0.

(** * Properties *)

(** ** Running the monad *)

Lemma bind_run {A B : Type} (m : M A) (f : A -> M B) (h h' : History) (a : A) :
  m h = (a, h') -> bind m f h = f a h'.
Proof. intros E. unfold bind. rewrite E. reflexivity. Qed.

Lemma eqb_empty_false (s : string) : s <> "" -> (s =? "") = false.
Proof. intros H. now apply String.eqb_neq. Qed.

(** Case analysis on every test left in the goal. *)
Ltac split_ifs :=
  repeat match goal with
         | |- context [if ?b then _ else _] => destruct b eqn:?
         end.

(** ** Credentials *)

(** C7.  [FilebrowserAuth.Validate] returns an error exactly when at least
    one of URL, username and password is the empty string, whichever it is;
    it returns [nil] exactly when all three are non-empty. *)
Theorem Validate_error_iff_some_field_empty (auth : FilebrowserAuth.t) :
  ((exists e, FilebrowserAuth.Validate auth = Some e)
   <-> (FilebrowserAuth.URL auth = ""
        \/ FilebrowserAuth.Username auth = ""
        \/ FilebrowserAuth.Password auth = ""))
  /\ (FilebrowserAuth.Validate auth = None
      <-> (FilebrowserAuth.URL auth <> ""
           /\ FilebrowserAuth.Username auth <> ""
           /\ FilebrowserAuth.Password auth <> "")).
Proof.
  destruct auth as [u n p]. unfold FilebrowserAuth.Validate.
  cbn [FilebrowserAuth.URL FilebrowserAuth.Username FilebrowserAuth.Password].
  destruct (String.eqb_spec u ""), (String.eqb_spec n ""), (String.eqb_spec p "");
    (split; split;
     [ intros [msg Hmsg]; try discriminate; auto
     | intros [H | [H | H]]; try contradiction; eauto
     | intros H; try discriminate; auto
     | intros (H1 & H2 & H3); try contradiction; auto ]).
Qed.

(** ** Empty remote paths *)

(** C10.  Each of [Upload], [Share], [GetResource] and [DeleteResource],
    called with an empty remote path, returns an error and leaves both the
    client (its token included) and the history as they were: no login and no
    request is attempted. *)
Theorem empty_remote_path_is_rejected_up_front
    (w : World) (c : Client.t) (h : History)
    (localPath password unit : string) (expires : Z) :
  (exists e, Upload w c localPath "" h = (Some e, c, h))
  /\ (exists e, Share w c "" expires password unit h = (Err e, c, h))
  /\ (exists e, GetResource w c "" h = (Err e, c, h))
  /\ (exists e, DeleteResource w c "" h = (Some e, c, h)).
Proof.
  split; [| split; [| split]].
  - unfold Upload. destruct (localPath =? ""); eexists; reflexivity.
  - eexists; reflexivity.
  - eexists; reflexivity.
  - eexists; reflexivity.
Qed.

(** ** Local paths *)

Lemma Join_two_of_three (tmp a b : string) :
  a <> "" ->
  filepath.Join [tmp; a ++ "/" ++ b] = filepath.Join [tmp; a; b].
Proof.
  intros Ha. cbn [filepath.Join].
  rewrite (eqb_empty_false a Ha).
  assert (Hab : (a ++ "/" ++ b =? "") = false).
  { destruct a; [contradiction | reflexivity]. }
  rewrite Hab.
  destruct (tmp =? ""); reflexivity.
Qed.

(** What [LocalPathForDownload] returns for a URL the parser accepts. *)
Lemma LocalPathForDownload_parsed (w : World) (fileURL : string) (u : url.URL) :
  url.Parse fileURL = Some u ->
  LocalPathForDownload w fileURL =
    filepath.Join
      [TempDir w;
       if strings.TrimPrefix (url.Path u) "/" =? "" then "downloaded_file"
       else strings.TrimPrefix (url.Path u) "/"].
Proof. intros E. unfold LocalPathForDownload. rewrite E. reflexivity. Qed.

(** C5.  [LocalPathForDownload] joins the temp directory with the path
    component of the URL, one leading slash stripped, and with
    [downloaded_file] when nothing is left.  So [https://x/files/a.pdf] maps
    to temp-dir/files/a.pdf, [https://x/a.pdf] to temp-dir/a.pdf and
    [https://x/] to temp-dir/downloaded_file, the right-hand sides being
    the [filepath.Join] of the temp directory and the elements. *)
Theorem LocalPathForDownload_joins_temp_dir_and_url_path (w : World) :
  LocalPathForDownload w "https://x/files/a.pdf"
    = filepath.Join [TempDir w; "files"; "a.pdf"]
  /\ LocalPathForDownload w "https://x/a.pdf"
    = filepath.Join [TempDir w; "a.pdf"]
  /\ LocalPathForDownload w "https://x/"
    = filepath.Join [TempDir w; "downloaded_file"]
  /\ (forall (fileURL : string) (u : url.URL),
        url.Parse fileURL = Some u ->
        LocalPathForDownload w fileURL =
          filepath.Join
            [TempDir w;
             if strings.TrimPrefix (url.Path u) "/" =? "" then "downloaded_file"
             else strings.TrimPrefix (url.Path u) "/"]).
Proof.
  split; [| split; [| split]].
  - rewrite (LocalPathForDownload_parsed w _ (url.mkURL "https" "" "/files/a.pdf" "" ""))
      by (vm_compute; reflexivity).
    change (filepath.Join [TempDir w; "files" ++ "/" ++ "a.pdf"]
            = filepath.Join [TempDir w; "files"; "a.pdf"]).
    apply Join_two_of_three. discriminate.
  - rewrite (LocalPathForDownload_parsed w _ (url.mkURL "https" "" "/a.pdf" "" ""))
      by (vm_compute; reflexivity).
    reflexivity.
  - rewrite (LocalPathForDownload_parsed w _ (url.mkURL "https" "" "/" "" ""))
      by (vm_compute; reflexivity).
    reflexivity.
  - intros fileURL u. apply LocalPathForDownload_parsed.
Qed.

(** With [/tmp] as temp directory the three paths are the expected texts. *)
Example LocalPathForDownload_in_tmp :
  LocalPathForDownload worldAbsent "https://x/files/a.pdf" = "/tmp/files/a.pdf"
  /\ LocalPathForDownload worldAbsent "https://x/a.pdf" = "/tmp/a.pdf"
  /\ LocalPathForDownload worldAbsent "https://x/" = "/tmp/downloaded_file".
Proof. repeat split; vm_compute; reflexivity. Qed.

(** ** The local cache check *)

(** On its own, [fileExistsWithSameSize] compares sizes also for an
    expected size of zero: the test [fileSize > 0] that disables the check
    is the left operand of the condition in [DownloadToLocal]. *)
Remark fileExistsWithSameSize_has_no_size_guard :
  fst (fileExistsWithSameSize worldEmptyLocalFile "/tmp/a.pdf" 0 []) = true
  /\ fst (localCacheCheck worldEmptyLocalFile "/tmp/a.pdf" 0 []) = false.
Proof. split; reflexivity. Qed.

(** C2.  For an expected size of zero or less the cache check of
    [DownloadToLocal] is false whatever the file system answers (it does not
    even look at the file), so [DownloadToLocal] never returns the cached
    path: once the directory exists it calls [netutil.DownloadFile], and its
    result is the result of that fetch. *)
Theorem cache_check_disabled_for_unknown_size
    (w : World) (localPath : string) (fileSize : Z) (h : History) :
  (fileSize <= 0)%Z ->
  localCacheCheck w localPath fileSize h = (false, h)
  /\ (forall (fileURL : string) (h1 : History),
        fileURL <> "" ->
        EnsureFolderForFile w (LocalPathForDownload w fileURL) h = (None, h1) ->
        DownloadToLocal w fileURL fileSize h =
          (match netutilDownloadFile w h1 (LocalPathForDownload w fileURL) fileURL with
           | Some e => Err ("failed to download file from " ++ fileURL ++ ": " ++ e)
           | None => Ok (LocalPathForDownload w fileURL)
           end,
           (h1 ++ [CallDownloadFile (LocalPathForDownload w fileURL) fileURL])%list)).
Proof.
  intros Hsize.
  assert (Hguard : (0 <? fileSize)%Z = false) by (apply Z.ltb_ge; exact Hsize).
  split.
  - unfold localCacheCheck. rewrite Hguard. reflexivity.
  - intros fileURL h1 Hurl Hdir.
    unfold DownloadToLocal. rewrite (eqb_empty_false _ Hurl).
    rewrite (bind_run _ _ _ _ _ Hdir).
    unfold localCacheCheck. rewrite Hguard.
    unfold bind, ret, call. cbn [fst snd].
    destruct (netutilDownloadFile w h1 (LocalPathForDownload w fileURL) fileURL);
      reflexivity.
Qed.

Lemma cache_check_disabled_witness :
  (0 <= 0)%Z
  /\ "https://x/a.pdf" <> ""
  /\ EnsureFolderForFile worldEmptyLocalFile "/tmp/a.pdf" []
     = (None, [CallCreateDir "/tmp"])
  /\ localCacheCheck worldEmptyLocalFile "/tmp/a.pdf" 0 [] = (false, [])
  /\ DownloadToLocal worldEmptyLocalFile "https://x/a.pdf" 0 []
     = (Ok "/tmp/a.pdf",
        [CallCreateDir "/tmp"; CallDownloadFile "/tmp/a.pdf" "https://x/a.pdf"]).
Proof.
  assert (Hsize : (0 <= 0)%Z) by lia.
  assert (Hurl : "https://x/a.pdf" <> "") by discriminate.
  assert (Hdir : EnsureFolderForFile worldEmptyLocalFile
                   (LocalPathForDownload worldEmptyLocalFile "https://x/a.pdf") []
                 = (None, [CallCreateDir "/tmp"])) by reflexivity.
  destruct (cache_check_disabled_for_unknown_size worldEmptyLocalFile
              "/tmp/a.pdf" 0 [] Hsize) as [Hcheck Hfetch].
  split; [exact Hsize | split; [exact Hurl | split; [exact Hdir | split]]].
  - exact Hcheck.
  - exact (Hfetch "https://x/a.pdf" [CallCreateDir "/tmp"] Hurl Hdir).
Defined.

(** ** The client after authentication *)

Lemma ensureAuthenticated_token_held (w : World) (c : Client.t) (h : History) :
  Client.Token c <> "" -> ensureAuthenticated w c h = (None, c, h).
Proof.
  intros H. unfold ensureAuthenticated. rewrite (eqb_empty_false _ H). reflexivity.
Qed.

(** [Share] once the guard has passed: one POST request, whose body is
    chosen by the sign of [expires]. *)
Lemma Share_run (w : World) (c c' : Client.t) (remotePath : string) (expires : Z)
    (password unit : string) (h h' : History) :
  remotePath <> "" ->
  ensureAuthenticated w c h = (None, c', h') ->
  let body := if (0 <? expires)%Z
              then ReqShare.mk (itoa expires) password unit
              else ReqShare.zero in
  let request := shareRequest c' remotePath body in
  Share w c remotePath expires password unit h =
    (match httpDo w h' request with
     | Err e => Err ("share request failed: " ++ e)
     | Ok resp =>
         if isSuccessState resp then
           match unmarshalShare w resp with
           | Err e => Err ("share request failed: " ++ e)
           | Ok result =>
               if negb (Response.StatusCode resp =? 200)%Z then
                 Err ("share request failed with status code: "
                      ++ itoa (Response.StatusCode resp))
               else if RespShare.Hash result =? "" then
                 Err "received empty hash from server"
               else Ok (RespShare.Hash result)
           end
         else Err ("share request failed with status code: "
                   ++ itoa (Response.StatusCode resp))
     end, c', (h' ++ [CallHTTP request])%list).
Proof.
  intros Hpath Hauth body request.
  unfold Share. rewrite (eqb_empty_false _ Hpath).
  rewrite (bind_run _ _ _ _ _ Hauth).
  fold body. fold request.
  unfold sendInto, send, bind, ret, call. cbn [fst snd].
  destruct (httpDo w h' request) as [resp | e]; [| reflexivity].
  destruct (isSuccessState resp) eqn:Hs.
  - destruct (unmarshalShare w resp) as [result | e]; split_ifs; reflexivity.
  - assert (Hne : (Response.StatusCode resp =? 200)%Z = false).
    { unfold isSuccessState in Hs. apply Z.eqb_neq. intros E. rewrite E in Hs.
      discriminate. }
    rewrite Hne. reflexivity.
Qed.

(** C3.  The request [Share] sends carries [ReqShare{}], with expiration,
    unit and password left out, when the expiration value is zero or less,
    and carries all three (the expiration in decimal) when it is greater
    than zero. *)
Theorem Share_body_depends_on_expiration
    (w : World) (c c' : Client.t) (remotePath : string) (expires : Z)
    (password unit : string) (h h' : History) :
  remotePath <> "" ->
  ensureAuthenticated w c h = (None, c', h') ->
  exists body : ReqShare.t,
    snd (Share w c remotePath expires password unit h)
      = (h' ++ [CallHTTP (shareRequest c' remotePath body)])%list
    /\ ((expires <= 0)%Z -> body = ReqShare.zero)
    /\ ((expires > 0)%Z -> body = ReqShare.mk (itoa expires) password unit).
Proof.
  intros Hpath Hauth.
  exists (if (0 <? expires)%Z
          then ReqShare.mk (itoa expires) password unit
          else ReqShare.zero).
  split; [| split].
  - rewrite (Share_run w c c' remotePath expires password unit h h' Hpath Hauth).
    reflexivity.
  - intros Hle. destruct (Z.ltb_spec 0 expires); [lia | reflexivity].
  - intros Hgt. destruct (Z.ltb_spec 0 expires); [reflexivity | lia].
Qed.

Lemma Share_body_witness :
  "uploads/a.pdf" <> ""
  /\ ensureAuthenticated worldPresent authenticatedClient []
     = (None, authenticatedClient, [])
  /\ exists body : ReqShare.t,
       snd (Share worldPresent authenticatedClient "uploads/a.pdf" 24 "pw" "hours" [])
         = ([] ++ [CallHTTP (shareRequest authenticatedClient "uploads/a.pdf" body)])%list
       /\ ((24 <= 0)%Z -> body = ReqShare.zero)
       /\ ((24 > 0)%Z -> body = ReqShare.mk (itoa 24) "pw" "hours").
Proof.
  assert (Hpath : "uploads/a.pdf" <> "") by discriminate.
  assert (Hauth : ensureAuthenticated worldPresent authenticatedClient []
                  = (None, authenticatedClient, [])) by reflexivity.
  split; [exact Hpath | split; [exact Hauth |]].
  exact (Share_body_depends_on_expiration worldPresent authenticatedClient
           authenticatedClient "uploads/a.pdf" 24 "pw" "hours" [] [] Hpath Hauth).
Defined.

(** ** Resource metadata *)

(** [GetResource] once the guard has passed. *)
Lemma GetResource_run (w : World) (c c' : Client.t) (remotePath : string)
    (h h' : History) :
  remotePath <> "" ->
  ensureAuthenticated w c h = (None, c', h') ->
  GetResource w c remotePath h =
    (match httpDo w h' (getRequest c' remotePath) with
     | Err e => Err ("resource request failed: " ++ e)
     | Ok resp =>
         if isSuccessState resp then
           match unmarshalResource w resp with
           | Err e => Err ("resource request failed: " ++ e)
           | Ok result =>
               if negb (Response.StatusCode resp =? 200)%Z then
                 Err ("resource request failed with status code: "
                      ++ itoa (Response.StatusCode resp))
               else Ok result
           end
         else if (Response.StatusCode resp =? 404)%Z then Ok notExistResource
         else Err ("resource request failed with status code: "
                   ++ itoa (Response.StatusCode resp))
     end, c', (h' ++ [CallHTTP (getRequest c' remotePath)])%list).
Proof.
  intros Hpath Hauth.
  unfold GetResource. rewrite (eqb_empty_false _ Hpath).
  rewrite (bind_run _ _ _ _ _ Hauth).
  unfold sendInto, send, bind, ret, call. cbn [fst snd].
  destruct (httpDo w h' (getRequest c' remotePath)) as [resp | e]; [| reflexivity].
  unfold isSuccessState.
  destruct (Z.eqb_spec (Response.StatusCode resp) 404) as [E | N404].
  - assert (Hs : ((200 <=? Response.StatusCode resp)%Z
                  && (Response.StatusCode resp <=? 299)%Z) = false)
      by (rewrite E; reflexivity).
    rewrite Hs. cbn match. apply Z.eqb_eq in E. rewrite E. reflexivity.
  - apply Z.eqb_neq in N404.
    destruct ((200 <=? Response.StatusCode resp)%Z
              && (Response.StatusCode resp <=? 299)%Z) eqn:Hs.
    + destruct (unmarshalResource w resp); cbn match; [| reflexivity].
      rewrite N404. split_ifs; reflexivity.
    + cbn match. rewrite N404.
      destruct (Z.eqb_spec (Response.StatusCode resp) 200) as [E | N200].
      * rewrite E in Hs. discriminate.
      * reflexivity.
Qed.

(** C4, counterexample.  An OK status does not imply [NotExist] false: the
    server answers 200 to the metadata request with a body whose [not_exist]
    member is true, and [GetResource] returns the decoded metadata, marker
    included. *)
Lemma GetResource_ok_may_carry_not_exist :
  httpDo worldMarkedNotExist [] (getRequest authenticatedClient "uploads/a.pdf")
    = Ok (Response.mk 200 "resource-json")
  /\ fst (fst (GetResource worldMarkedNotExist authenticatedClient "uploads/a.pdf" []))
    = Ok markedResource
  /\ RespResource.NotExist markedResource = true.
Proof. repeat split. Qed.

(** C4, amended.  Once authenticated, [GetResource] maps the response to its
    metadata request as follows: status 404 gives the non-error result
    [RespResource{NotExist: true}]; status 200 gives the decoded metadata as
    it was decoded (so its [NotExist] is that of the body: false unless the
    body sets [not_exist]); a body that cannot be decoded and every status
    other than 200 and 404 give an error. *)
Theorem GetResource_maps_status
    (w : World) (c c' : Client.t) (remotePath : string) (h h' : History)
    (resp : Response.t) :
  remotePath <> "" ->
  ensureAuthenticated w c h = (None, c', h') ->
  httpDo w h' (getRequest c' remotePath) = Ok resp ->
  let h'' := (h' ++ [CallHTTP (getRequest c' remotePath)])%list in
  (Response.StatusCode resp = 404%Z ->
     GetResource w c remotePath h = (Ok notExistResource, c', h'')
     /\ RespResource.NotExist notExistResource = true)
  /\ (Response.StatusCode resp = 200%Z ->
      forall result : RespResource.t,
        unmarshalResource w resp = Ok result ->
        GetResource w c remotePath h = (Ok result, c', h''))
  /\ (Response.StatusCode resp = 200%Z ->
      forall e : string,
        unmarshalResource w resp = Err e ->
        GetResource w c remotePath h
          = (Err ("resource request failed: " ++ e), c', h''))
  /\ (Response.StatusCode resp <> 200%Z ->
      Response.StatusCode resp <> 404%Z ->
      exists e : string, GetResource w c remotePath h = (Err e, c', h'')).
Proof.
  intros Hpath Hauth Hresp h''.
  rewrite (GetResource_run w c c' remotePath h h' Hpath Hauth), Hresp.
  unfold isSuccessState. fold h''.
  split; [| split; [| split]].
  - intros E. rewrite E. split; reflexivity.
  - intros E result Hdec. rewrite E, Hdec. reflexivity.
  - intros E e Hdec. rewrite E, Hdec. reflexivity.
  - intros N200 N404.
    apply Z.eqb_neq in N200. apply Z.eqb_neq in N404. rewrite N200, N404.
    cbn [negb].
    destruct ((200 <=? Response.StatusCode resp)%Z
              && (Response.StatusCode resp <=? 299)%Z);
      [destruct (unmarshalResource w resp) |]; eexists; reflexivity.
Qed.

Lemma GetResource_maps_status_witness :
  "uploads/a.pdf" <> ""
  /\ ensureAuthenticated worldAbsent authenticatedClient []
     = (None, authenticatedClient, [])
  /\ httpDo worldAbsent [] (getRequest authenticatedClient "uploads/a.pdf")
     = Ok (Response.mk 404 "resource-json")
  /\ GetResource worldAbsent authenticatedClient "uploads/a.pdf" []
     = (Ok notExistResource, authenticatedClient,
        [CallHTTP (getRequest authenticatedClient "uploads/a.pdf")]).
Proof.
  assert (Hpath : "uploads/a.pdf" <> "") by discriminate.
  assert (Hauth : ensureAuthenticated worldAbsent authenticatedClient []
                  = (None, authenticatedClient, [])) by reflexivity.
  assert (Hresp : httpDo worldAbsent [] (getRequest authenticatedClient "uploads/a.pdf")
                  = Ok (Response.mk 404 "resource-json")) by reflexivity.
  split; [exact Hpath | split; [exact Hauth | split; [exact Hresp |]]].
  exact (proj1 (proj1 (GetResource_maps_status worldAbsent authenticatedClient
                         authenticatedClient "uploads/a.pdf" [] []
                         (Response.mk 404 "resource-json") Hpath Hauth Hresp)
                  eq_refl)).
Defined.

(** ** Deleting a resource *)

(** [DeleteResource] once the guard has passed. *)
Lemma DeleteResource_run (w : World) (c c' : Client.t) (remotePath : string)
    (h h' : History) :
  remotePath <> "" ->
  ensureAuthenticated w c h = (None, c', h') ->
  DeleteResource w c remotePath h =
    (match httpDo w h' (deleteRequest c' remotePath) with
     | Err e => Some ("delete request failed: " ++ e)
     | Ok resp =>
         if negb (Response.StatusCode resp =? 200)%Z
            && negb (Response.StatusCode resp =? 404)%Z
         then Some ("delete request failed with status code: "
                    ++ itoa (Response.StatusCode resp))
         else None
     end, c', (h' ++ [CallHTTP (deleteRequest c' remotePath)])%list).
Proof.
  intros Hpath Hauth.
  unfold DeleteResource. rewrite (eqb_empty_false _ Hpath).
  rewrite (bind_run _ _ _ _ _ Hauth).
  unfold send, bind, ret, call. cbn [fst snd].
  destruct (httpDo w h' (deleteRequest c' remotePath)) as [resp | e];
    split_ifs; reflexivity.
Qed.

(** C6.  Once authenticated, [DeleteResource] returns no error when the
    server answers its DELETE request with 200 (deleted) or with 404
    (already absent), and returns an error for every other status code. *)
Theorem DeleteResource_is_idempotent
    (w : World) (c c' : Client.t) (remotePath : string) (h h' : History)
    (resp : Response.t) :
  remotePath <> "" ->
  ensureAuthenticated w c h = (None, c', h') ->
  httpDo w h' (deleteRequest c' remotePath) = Ok resp ->
  let h'' := (h' ++ [CallHTTP (deleteRequest c' remotePath)])%list in
  (Response.StatusCode resp = 200%Z \/ Response.StatusCode resp = 404%Z ->
     DeleteResource w c remotePath h = (None, c', h''))
  /\ (Response.StatusCode resp <> 200%Z ->
      Response.StatusCode resp <> 404%Z ->
      DeleteResource w c remotePath h
        = (Some ("delete request failed with status code: "
                 ++ itoa (Response.StatusCode resp)), c', h'')).
Proof.
  intros Hpath Hauth Hresp h''.
  rewrite (DeleteResource_run w c c' remotePath h h' Hpath Hauth), Hresp.
  fold h''. split.
  - intros [E | E]; rewrite E; reflexivity.
  - intros N200 N404.
    apply Z.eqb_neq in N200. apply Z.eqb_neq in N404. rewrite N200, N404.
    reflexivity.
Qed.

Lemma DeleteResource_is_idempotent_witness :
  "uploads/a.pdf" <> ""
  /\ ensureAuthenticated worldPresent authenticatedClient []
     = (None, authenticatedClient, [])
  /\ httpDo worldPresent [] (deleteRequest authenticatedClient "uploads/a.pdf")
     = Ok (Response.mk 200 "")
  /\ DeleteResource worldPresent authenticatedClient "uploads/a.pdf" []
     = (None, authenticatedClient,
        [CallHTTP (deleteRequest authenticatedClient "uploads/a.pdf")]).
Proof.
  assert (Hpath : "uploads/a.pdf" <> "") by discriminate.
  assert (Hauth : ensureAuthenticated worldPresent authenticatedClient []
                  = (None, authenticatedClient, [])) by reflexivity.
  assert (Hresp : httpDo worldPresent []
                    (deleteRequest authenticatedClient "uploads/a.pdf")
                  = Ok (Response.mk 200 "")) by reflexivity.
  split; [exact Hpath | split; [exact Hauth | split; [exact Hresp |]]].
  exact (proj1 (DeleteResource_is_idempotent worldPresent authenticatedClient
                  authenticatedClient "uploads/a.pdf" [] [] (Response.mk 200 "")
                  Hpath Hauth Hresp)
           (or_introl eq_refl)).
Defined.

(** ** The orchestrator *)

Lemma policy_test (expected remote : Z) :
  ((0 <? expected)%Z && negb (remote =? expected)%Z)
  = negb ((expected <=? 0)%Z || (expected =? remote)%Z).
Proof.
  destruct (Z.ltb_spec 0 expected), (Z.leb_spec expected 0),
    (Z.eqb_spec remote expected), (Z.eqb_spec expected remote);
    try reflexivity; lia.
Qed.

(** After the metadata request, [SaveAndShare] runs the action the decision
    table selects. *)
Lemma SaveAndShare_after_GetResource
    (w : World) (auth : FilebrowserAuth.t) (externalURL : string)
    (remotePathFn : string -> string) (actionParams : ActionParams.t)
    (h h1 h2 : History) (localPath : string) (resourceRet : RespResource.t)
    (c1 : Client.t) :
  FilebrowserAuth.Validate auth = None ->
  externalURL <> "" ->
  DownloadToLocal w externalURL (ActionParams.FileSize actionParams) h
    = (Ok localPath, h1) ->
  remotePathFn (filepath.Base localPath) <> "" ->
  GetResource w (newClient auth) (remotePathFn (filepath.Base localPath)) h1
    = (Ok resourceRet, c1, h2) ->
  SaveAndShare w auth externalURL (Some remotePathFn) actionParams h =
    runAction w
      (syncPolicy (negb (RespResource.NotExist resourceRet))
                  (ActionParams.Force actionParams)
                  (ActionParams.FileSize actionParams)
                  (RespResource.Size resourceRet))
      c1 localPath (remotePathFn (filepath.Base localPath)) actionParams h2.
Proof.
  intros Hauth Hurl Hdl Hpath Hget.
  unfold SaveAndShare. rewrite Hauth, (eqb_empty_false _ Hurl).
  rewrite (bind_run _ _ _ _ _ Hdl). cbn match.
  rewrite (eqb_empty_false _ Hpath).
  rewrite (bind_run _ _ _ _ _ Hget). cbn match.
  unfold syncPolicy. rewrite policy_test.
  set (remotePath := remotePathFn (filepath.Base localPath)).
  destruct (RespResource.NotExist resourceRet); cbn [negb];
    [| destruct (ActionParams.Force actionParams) eqn:Hforce;
       [| destruct ((ActionParams.FileSize actionParams <=? 0)%Z
                    || (ActionParams.FileSize actionParams
                        =? RespResource.Size resourceRet)%Z); cbn [negb] ] ];
    unfold runAction, deleteStage, uploadStage, shareStage, bind, ret;
    try rewrite Hforce; cbn [fst snd];
    try (destruct (DeleteResource w c1 remotePath h2) as [[[e |] c2] h3];
         cbn [fst snd]; [reflexivity |]);
    match goal with
    | |- context [Upload w ?c localPath remotePath ?hh] =>
        destruct (Upload w c localPath remotePath hh) as [[[e |] c3] h4];
        cbn [fst snd]; [reflexivity |]
    | _ => idtac
    end;
    match goal with
    | |- context [Share w ?c ?p ?x ?pw ?u ?hh] =>
        destruct (Share w c p x pw u hh) as [[[hash | e] c4] h5]
    end; reflexivity.
Qed.

(** C1.  Once the metadata of the remote path is known, [SaveAndShare]
    does what the decision table selects from (resource exists, force flag,
    expected size, remote size), and the table reads: absent, upload;
    present with force, delete then upload, whatever the sizes; present
    without force and expected size unknown (zero or less) or equal to the
    remote size, skip the upload; present without force and expected size
    known and different, delete then upload. *)
Theorem SaveAndShare_follows_sync_policy
    (w : World) (auth : FilebrowserAuth.t) (externalURL : string)
    (remotePathFn : string -> string) (actionParams : ActionParams.t)
    (h h1 h2 : History) (localPath : string) (resourceRet : RespResource.t)
    (c1 : Client.t) :
  FilebrowserAuth.Validate auth = None ->
  externalURL <> "" ->
  DownloadToLocal w externalURL (ActionParams.FileSize actionParams) h
    = (Ok localPath, h1) ->
  remotePathFn (filepath.Base localPath) <> "" ->
  GetResource w (newClient auth) (remotePathFn (filepath.Base localPath)) h1
    = (Ok resourceRet, c1, h2) ->
  let notExist := RespResource.NotExist resourceRet in
  let force := ActionParams.Force actionParams in
  let expected := ActionParams.FileSize actionParams in
  let remote := RespResource.Size resourceRet in
  let action := syncPolicy (negb notExist) force expected remote in
  SaveAndShare w auth externalURL (Some remotePathFn) actionParams h
    = runAction w action c1 localPath (remotePathFn (filepath.Base localPath))
                actionParams h2
  /\ (notExist = true -> action = ActUpload)
  /\ (notExist = false -> force = true -> action = ActDeleteThenUpload)
  /\ (notExist = false -> force = false ->
      (expected <= 0)%Z \/ expected = remote -> action = ActSkip)
  /\ (notExist = false -> force = false ->
      (expected > 0)%Z -> expected <> remote -> action = ActDeleteThenUpload).
Proof.
  intros Hauth Hurl Hdl Hpath Hget notExist force expected remote action.
  split; [| split; [| split; [| split]]].
  - apply (SaveAndShare_after_GetResource w auth externalURL remotePathFn
             actionParams h h1 h2); assumption.
  - intros E. unfold action, syncPolicy. rewrite E. reflexivity.
  - intros E F. unfold action, syncPolicy. rewrite E, F. reflexivity.
  - intros E F Hsize. unfold action, syncPolicy. rewrite E, F. cbn [negb].
    destruct (Z.leb_spec expected 0), (Z.eqb_spec expected remote);
      try reflexivity; lia.
  - intros E F Hpos Hne. unfold action, syncPolicy. rewrite E, F. cbn [negb].
    destruct (Z.leb_spec expected 0), (Z.eqb_spec expected remote);
      try reflexivity; try lia; contradiction.
Qed.

Lemma SaveAndShare_follows_sync_policy_witness :
  let url := "https://x/files/a.pdf" in
  let h1 := snd (DownloadToLocal worldPresent url 5 []) in
  let h2 := snd (GetResource worldPresent sampleClient "uploads/a.pdf" h1) in
  FilebrowserAuth.Validate sampleAuth = None
  /\ DownloadToLocal worldPresent url 5 [] = (Ok "/tmp/files/a.pdf", h1)
  /\ GetResource worldPresent (newClient sampleAuth)
       (sampleRemotePathFn (filepath.Base "/tmp/files/a.pdf")) h1
     = (Ok (remoteFile 100), authenticatedClient, h2)
  /\ SaveAndShare worldPresent sampleAuth url (Some sampleRemotePathFn)
       mismatchParams []
     = runAction worldPresent ActDeleteThenUpload authenticatedClient
         "/tmp/files/a.pdf" "uploads/a.pdf" mismatchParams h2.
Proof.
  intros url h1 h2.
  assert (Hv : FilebrowserAuth.Validate sampleAuth = None) by reflexivity.
  assert (Hd : DownloadToLocal worldPresent url
                 (ActionParams.FileSize mismatchParams) []
               = (Ok "/tmp/files/a.pdf", h1)) by reflexivity.
  assert (Hg : GetResource worldPresent (newClient sampleAuth)
                 (sampleRemotePathFn (filepath.Base "/tmp/files/a.pdf")) h1
               = (Ok (remoteFile 100), authenticatedClient, h2)) by reflexivity.
  split; [exact Hv | split; [exact Hd | split; [exact Hg |]]].
  refine (proj1 (SaveAndShare_follows_sync_policy worldPresent sampleAuth url
                   sampleRemotePathFn mismatchParams [] h1 h2 "/tmp/files/a.pdf"
                   (remoteFile 100) authenticatedClient Hv _ Hd _ Hg)).
  - discriminate.
  - discriminate.
Defined.

(** ** Operations are guarded *)

Lemma logins_app (h new : History) :
  logins (h ++ new)%list = logins h + logins new.
Proof. unfold logins. rewrite filter_app, length_app. reflexivity. Qed.

Lemma Guarded_refl (c : Client.t) (h : History) : Guarded c h c h.
Proof.
  exists []. rewrite app_nil_r. repeat split; auto.
Qed.

(** One more call that is not a login and carries its token. *)
Lemma Guarded_after (c c' : Client.t) (h h' : History) (x : Call) :
  Guarded c h c' h' ->
  carriesToken x = true ->
  isLogin x = false ->
  Guarded c h c' (h' ++ [x])%list.
Proof.
  intros (new & -> & Hall & Hone & Hurl & Hreq & Hheld) Hx Hl.
  exists (new ++ [x])%list.
  assert (Hn : logins (new ++ [x])%list = logins new).
  { rewrite logins_app. unfold logins at 2. cbn [List.filter]. rewrite Hl.
    cbn [List.length]. lia. }
  rewrite app_assoc, forallb_app, Hall, Hn. cbn [List.forallb]. rewrite Hx.
  repeat split; auto; apply Hheld; assumption.
Qed.

(** A call made before the guarded part. *)
Lemma Guarded_before (c c' : Client.t) (h h' : History) (x : Call) :
  carriesToken x = true ->
  isLogin x = false ->
  Guarded c (h ++ [x])%list c' h' ->
  Guarded c h c' h'.
Proof.
  intros Hx Hl (new & -> & Hall & Hone & Hurl & Hreq & Hheld).
  exists (x :: new).
  assert (Hn : logins (x :: new) = logins new).
  { unfold logins. cbn [List.filter]. rewrite Hl. reflexivity. }
  rewrite Hn. cbn [List.forallb]. rewrite Hx, Hall, <- app_assoc.
  repeat split; auto; apply Hheld; assumption.
Qed.

Lemma Login_guarded (w : World) (c c' : Client.t) (h h' : History) (e : error) :
  Client.Token c = "" ->
  Login w c h = (e, c', h') ->
  Guarded c h c' h' /\ (e = None -> Client.Token c' <> "").
Proof.
  intros Hempty H. unfold Login in H.
  destruct (Client.Validate c).
  - injection H as <- <- <-. split; [apply Guarded_refl | discriminate].
  - unfold send, bind, ret, call in H. cbn [fst snd] in H.
    assert (G : forall (t : string) (e0 : error),
               (e0 = None -> t <> "") ->
               Guarded c h (Client.setToken c t)
                       (h ++ [CallHTTP (loginRequest c)])%list
               /\ (e0 = None -> Client.Token (Client.setToken c t) <> "")).
    { intros t e0 Ht. split; [| exact Ht].
      exists [CallHTTP (loginRequest c)].
      split; [reflexivity |]. split; [reflexivity |].
      split; [apply le_n |]. split; [reflexivity |]. split; [reflexivity |].
      intros N. contradiction. }
    assert (Hc : Client.setToken c (Client.Token c) = c) by (destruct c; reflexivity).
    destruct (httpDo w h (loginRequest c)) as [resp | msg].
    + destruct (negb (Response.StatusCode resp =? 200)%Z).
      * injection H as <- <- <-. rewrite <- Hc at 2. apply G. discriminate.
      * destruct (String.eqb_spec
                    (Client.Token (Client.setToken c (Response.Body resp))) "")
          as [E | N];
          injection H as <- <- <-; apply G; [discriminate | intros _; exact N].
    + injection H as <- <- <-. rewrite <- Hc at 2. apply G. discriminate.
Qed.

Lemma ensureAuthenticated_guarded
    (w : World) (c c' : Client.t) (h h' : History) (e : error) :
  ensureAuthenticated w c h = (e, c', h') ->
  Guarded c h c' h' /\ (e = None -> Client.Token c' <> "").
Proof.
  unfold ensureAuthenticated.
  destruct (String.eqb_spec (Client.Token c) "") as [E | N]; intros H.
  - apply (Login_guarded w c c' h h' e E H).
  - injection H as <- <- <-. split; [apply Guarded_refl | intros _; exact N].
Qed.

(** Closing a guarded run: the calls left carry the token of [c']. *)
Ltac guarded_calls G T :=
  repeat (apply Guarded_after;
          [ | cbn [carriesToken Request.XAuth shareRequest getRequest deleteRequest];
              try rewrite (eqb_empty_false _ T); reflexivity
            | reflexivity ]);
  exact G.

Lemma Upload_guarded (w : World) (c c' : Client.t) (localPath remotePath : string)
    (h h' : History) (e : error) :
  Upload w c localPath remotePath h = (e, c', h') -> Guarded c h c' h'.
Proof.
  unfold Upload.
  destruct (localPath =? ""); [intros H; injection H as <- <- <-; apply Guarded_refl |].
  destruct (remotePath =? ""); [intros H; injection H as <- <- <-; apply Guarded_refl |].
  unfold bind, ret, call. cbn [fst snd].
  destruct (osStatIsNotExist w h localPath).
  { intros H; injection H as <- <- <-.
    apply Guarded_after; [apply Guarded_refl | reflexivity | reflexivity]. }
  destruct (ensureAuthenticated w c (h ++ [CallStat localPath])%list)
    as [[ea c1] h1] eqn:Ha.
  apply ensureAuthenticated_guarded in Ha. destruct Ha as [G T].
  apply Guarded_before in G; [| reflexivity | reflexivity].
  cbn [fst snd].
  destruct ea as [msg |]; [intros H; injection H as <- <- <-; exact G |].
  specialize (T eq_refl).
  destruct (tusNewClient w _ _); [intros H; injection H as <- <- <-; exact G |].
  destruct (osOpen w h1 localPath);
    [intros H; injection H as <- <- <-; guarded_calls G T |].
  destruct (tusNewUploadFromFile w _ localPath);
    [intros H; injection H as <- <- <-; guarded_calls G T |].
  destruct (tusCreateUpload w _ _ _ localPath);
    [intros H; injection H as <- <- <-; guarded_calls G T |].
  destruct (tusUpload w _ _ _ localPath);
    intros H; injection H as <- <- <-; guarded_calls G T.
Qed.

Lemma Share_guarded (w : World) (c c' : Client.t) (remotePath : string)
    (expires : Z) (password unit : string) (h h' : History) (r : Result string) :
  Share w c remotePath expires password unit h = (r, c', h') -> Guarded c h c' h'.
Proof.
  destruct (String.eqb_spec remotePath "") as [-> | Hpath].
  { intros H; injection H as <- <- <-; apply Guarded_refl. }
  destruct (ensureAuthenticated w c h) as [[ea c1] h1] eqn:Ha.
  destruct ea as [msg |].
  - unfold Share. rewrite (eqb_empty_false _ Hpath), (bind_run _ _ _ _ _ Ha).
    intros H; injection H as <- <- <-.
    apply (ensureAuthenticated_guarded w c c1 h h1 _ Ha).
  - rewrite (Share_run w c c1 remotePath expires password unit h h1 Hpath Ha).
    intros H; injection H as <- <- <-.
    destruct (ensureAuthenticated_guarded w c c1 h h1 _ Ha) as [G T].
    specialize (T eq_refl). guarded_calls G T.
Qed.

Lemma GetResource_guarded (w : World) (c c' : Client.t) (remotePath : string)
    (h h' : History) (r : Result RespResource.t) :
  GetResource w c remotePath h = (r, c', h') -> Guarded c h c' h'.
Proof.
  destruct (String.eqb_spec remotePath "") as [-> | Hpath].
  { intros H; injection H as <- <- <-; apply Guarded_refl. }
  destruct (ensureAuthenticated w c h) as [[ea c1] h1] eqn:Ha.
  destruct ea as [msg |].
  - unfold GetResource. rewrite (eqb_empty_false _ Hpath), (bind_run _ _ _ _ _ Ha).
    intros H; injection H as <- <- <-.
    apply (ensureAuthenticated_guarded w c c1 h h1 _ Ha).
  - rewrite (GetResource_run w c c1 remotePath h h1 Hpath Ha).
    intros H; injection H as <- <- <-.
    destruct (ensureAuthenticated_guarded w c c1 h h1 _ Ha) as [G T].
    specialize (T eq_refl). guarded_calls G T.
Qed.

Lemma DeleteResource_guarded (w : World) (c c' : Client.t) (remotePath : string)
    (h h' : History) (e : error) :
  DeleteResource w c remotePath h = (e, c', h') -> Guarded c h c' h'.
Proof.
  destruct (String.eqb_spec remotePath "") as [-> | Hpath].
  { intros H; injection H as <- <- <-; apply Guarded_refl. }
  destruct (ensureAuthenticated w c h) as [[ea c1] h1] eqn:Ha.
  destruct ea as [msg |].
  - unfold DeleteResource. rewrite (eqb_empty_false _ Hpath), (bind_run _ _ _ _ _ Ha).
    intros H; injection H as <- <- <-.
    apply (ensureAuthenticated_guarded w c c1 h h1 _ Ha).
  - rewrite (DeleteResource_run w c c1 remotePath h h1 Hpath Ha).
    intros H; injection H as <- <- <-.
    destruct (ensureAuthenticated_guarded w c c1 h h1 _ Ha) as [G T].
    specialize (T eq_refl). guarded_calls G T.
Qed.

Lemma runOp_guarded (w : World) (op : Op) (c c' : Client.t) (h h' : History) :
  runOp w op c h = (c', h') -> Guarded c h c' h'.
Proof.
  destruct op as [lp rp | rp ex pw un | rp | rp]; unfold runOp, bind, ret;
    cbn [fst snd].
  - destruct (Upload w c lp rp h) as [[e c1] h1] eqn:E.
    intros H; injection H as <- <-. exact (Upload_guarded _ _ _ _ _ _ _ _ E).
  - destruct (Share w c rp ex pw un h) as [[r c1] h1] eqn:E.
    intros H; injection H as <- <-. exact (Share_guarded _ _ _ _ _ _ _ _ _ _ E).
  - destruct (GetResource w c rp h) as [[r c1] h1] eqn:E.
    intros H; injection H as <- <-. exact (GetResource_guarded _ _ _ _ _ _ _ E).
  - destruct (DeleteResource w c rp h) as [[e c1] h1] eqn:E.
    intros H; injection H as <- <-. exact (DeleteResource_guarded _ _ _ _ _ _ _ E).
Qed.

(** ** A client lifetime *)

Lemma runOps_app (w : World) (ops1 ops2 : list Op) (c : Client.t) (h : History) :
  runOps w (ops1 ++ ops2)%list c h
  = runOps w ops2 (fst (runOps w ops1 c h)) (snd (runOps w ops1 c h)).
Proof.
  revert c h. induction ops1 as [| op ops1 IH]; intros c h.
  - reflexivity.
  - cbn [runOps app]. unfold bind. apply IH.
Qed.

(** With a token held, no sequence of operations logs in or changes the
    client. *)
Lemma runOps_token_held (w : World) (ops : list Op) (c : Client.t) (h : History) :
  Client.Token c <> "" ->
  fst (runOps w ops c h) = c /\ logins (snd (runOps w ops c h)) = logins h.
Proof.
  intros Hheld. revert h. induction ops as [| op ops IH]; intros h.
  - split; reflexivity.
  - cbn [runOps]. unfold bind.
    destruct (runOp w op c h) as [c1 h1] eqn:E. cbn [fst snd].
    destruct (runOp_guarded w op c c1 h h1 E) as (new & -> & _ & _ & _ & _ & Hc).
    destruct (Hc Hheld) as [-> Hzero].
    destruct (IH (h ++ new)%list) as [IHc IHl].
    split; [exact IHc |]. rewrite IHl, logins_app, Hzero. lia.
Qed.

(** C9, counterexample.  Login is not limited to once per client lifetime:
    a server that rejects the login leaves the client without a token, so the
    next operation logs in again; two operations, two login exchanges. *)
Lemma login_repeats_after_failed_login :
  let run := runOps worldLoginFails
               [OpGetResource "uploads/a.pdf"; OpGetResource "uploads/a.pdf"]
               sampleClient [] in
  logins (snd run) = 2 /\ ~ logins (snd run) <= 1 /\ Client.Token (fst run) = "".
Proof.
  cbv zeta. split; [reflexivity | split; [| reflexivity]].
  change (~ 2 <= 1). lia.
Qed.

(** C9, amended.  Every operation among [Upload], [Share], [GetResource]
    and [DeleteResource] passes through [ensureAuthenticated] before it
    sends anything in its own name: whatever it adds to the history carries
    a non-empty token, and it adds at most one login exchange.  The guard
    logs in only when no token is held: with a non-empty token the operation
    adds no login exchange and leaves the client as it was.  Hence, from the
    moment a non-empty token is held, no later operation of the lifetime
    logs in, so a login that yields a token happens at most once.  (A
    failed login leaves no token, and the next operation tries again.) *)
Theorem login_only_while_no_token_is_held
    (w : World) (c : Client.t) (h : History) :
  (forall (op : Op) (c' : Client.t) (h' : History),
      runOp w op c h = (c', h') ->
      exists new : History,
        h' = (h ++ new)%list
        /\ List.forallb carriesToken new = true
        /\ logins new <= 1
        /\ (Client.Token c <> "" -> c' = c /\ logins new = 0))
  /\ (forall (ops1 ops2 : list Op) (c1 : Client.t) (h1 : History),
        runOps w ops1 c h = (c1, h1) ->
        Client.Token c1 <> "" ->
        fst (runOps w (ops1 ++ ops2)%list c h) = c1
        /\ logins (snd (runOps w (ops1 ++ ops2)%list c h)) = logins h1).
Proof.
  split.
  - intros op c' h' E.
    destruct (runOp_guarded w op c c' h h' E) as (new & Hh & Hall & Hone & _ & _ & Hc).
    exists new. auto.
  - intros ops1 ops2 c1 h1 E Hheld.
    rewrite runOps_app, E. cbn [fst snd].
    apply runOps_token_held. exact Hheld.
Qed.

(** ** The URLs of a successful run *)

Lemma Share_ok_hash (w : World) (c c' : Client.t) (remotePath : string)
    (expires : Z) (password unit : string) (h h' : History) (hash : string) :
  Share w c remotePath expires password unit h = (Ok hash, c', h') ->
  hash <> "".
Proof.
  destruct (String.eqb_spec remotePath "") as [-> | Hpath];
    [intros H; discriminate H |].
  destruct (ensureAuthenticated w c h) as [[ea c1] h1] eqn:Ha.
  destruct ea as [msg |].
  - unfold Share. rewrite (eqb_empty_false _ Hpath), (bind_run _ _ _ _ _ Ha).
    intros H; discriminate H.
  - rewrite (Share_run w c c1 remotePath expires password unit h h1 Hpath Ha).
    intros H. injection H as Hr _ _.
    destruct (httpDo w h1 _) as [resp | msg]; [| discriminate Hr].
    destruct (isSuccessState resp); [| discriminate Hr].
    destruct (unmarshalShare w resp) as [result | msg]; [| discriminate Hr].
    destruct (negb (Response.StatusCode resp =? 200)%Z); [discriminate Hr |].
    destruct (String.eqb_spec (RespShare.Hash result) "") as [E | N];
      [discriminate Hr |].
    injection Hr as <-. exact N.
Qed.

Lemma shareStage_ok (w : World) (c : Client.t) (remotePath : string)
    (actionParams : ActionParams.t) (h h' : History) (result : ShareResult.t) :
  shareStage w c remotePath actionParams h = (Ok result, h') ->
  exists (c' : Client.t) (hash : string),
    Share w c remotePath
          (ShareParams.Expires (ActionParams.ShareParams actionParams))
          (ShareParams.Password (ActionParams.ShareParams actionParams))
          (ShareParams.Unit (ActionParams.ShareParams actionParams)) h
      = (Ok hash, c', h')
    /\ result = ShareResult.mk (Client.URL c ++ "/share/" ++ hash)
                               (Client.URL c ++ "/api/public/dl/" ++ hash).
Proof.
  unfold shareStage, bind, ret.
  destruct (Share w c remotePath _ _ _ h) as [[[hash | msg] c'] h1] eqn:E;
    cbn [fst snd]; intros H; [| discriminate H].
  injection H as <- <-.
  destruct (Share_guarded _ _ _ _ _ _ _ _ _ _ E) as (_ & _ & _ & _ & Hurl & _).
  exists c', hash. rewrite Hurl. split; reflexivity.
Qed.

(** A successful action ends in a successful [Share] on a client with the
    URL of the one the action started with. *)
Lemma runAction_ok (w : World) (a : Action) (c : Client.t)
    (localPath remotePath : string) (actionParams : ActionParams.t)
    (h h' : History) (result : ShareResult.t) :
  runAction w a c localPath remotePath actionParams h = (Ok result, h') ->
  exists (c2 : Client.t) (h2 : History) (c3 : Client.t) (hash : string),
    Share w c2 remotePath
          (ShareParams.Expires (ActionParams.ShareParams actionParams))
          (ShareParams.Password (ActionParams.ShareParams actionParams))
          (ShareParams.Unit (ActionParams.ShareParams actionParams)) h2
      = (Ok hash, c3, h')
    /\ result = ShareResult.mk (Client.URL c ++ "/share/" ++ hash)
                               (Client.URL c ++ "/api/public/dl/" ++ hash).
Proof.
  assert (Hup : forall (c0 : Client.t) (h0 : History),
             Client.URL c0 = Client.URL c ->
             uploadStage w c0 localPath remotePath actionParams h0 = (Ok result, h') ->
             exists (c2 : Client.t) (h2 : History) (c3 : Client.t) (hash : string),
               Share w c2 remotePath
                     (ShareParams.Expires (ActionParams.ShareParams actionParams))
                     (ShareParams.Password (ActionParams.ShareParams actionParams))
                     (ShareParams.Unit (ActionParams.ShareParams actionParams)) h2
                 = (Ok hash, c3, h')
               /\ result = ShareResult.mk (Client.URL c ++ "/share/" ++ hash)
                                          (Client.URL c ++ "/api/public/dl/" ++ hash)).
  { intros c0 h0 Hurl0. unfold uploadStage, bind, ret.
    destruct (Upload w c0 localPath remotePath h0) as [[[msg |] c2] h2] eqn:E;
      cbn [fst snd]; intros H; [discriminate H |].
    destruct (Upload_guarded _ _ _ _ _ _ _ _ E) as (_ & _ & _ & _ & Hurl & _).
    destruct (shareStage_ok _ _ _ _ _ _ _ H) as (c3 & hash & Hs & ->).
    exists c2, h2, c3, hash. rewrite Hurl, Hurl0. split; [exact Hs | reflexivity]. }
  destruct a; cbn [runAction].
  - intros H. destruct (shareStage_ok _ _ _ _ _ _ _ H) as (c3 & hash & Hs & ->).
    exists c, h, c3, hash. split; [exact Hs | reflexivity].
  - unfold deleteStage, bind, ret.
    destruct (DeleteResource w c remotePath h) as [[[msg |] c0] h0] eqn:E;
      cbn [fst snd]; intros H; [discriminate H |].
    destruct (DeleteResource_guarded _ _ _ _ _ _ _ E) as (_ & _ & _ & _ & Hurl & _).
    exact (Hup c0 h0 Hurl H).
  - exact (Hup c h eq_refl).
Qed.

(** How a successful [SaveAndShare] got as far as the metadata. *)
Lemma SaveAndShare_ok_prefix
    (w : World) (auth : FilebrowserAuth.t) (externalURL : string)
    (remotePathFn : option (string -> string)) (actionParams : ActionParams.t)
    (h h' : History) (result : ShareResult.t) :
  SaveAndShare w auth externalURL remotePathFn actionParams h = (Ok result, h') ->
  exists (f : string -> string) (localPath : string) (h1 : History)
         (resourceRet : RespResource.t) (c1 : Client.t) (h2 : History),
    remotePathFn = Some f
    /\ FilebrowserAuth.Validate auth = None
    /\ externalURL <> ""
    /\ DownloadToLocal w externalURL (ActionParams.FileSize actionParams) h
       = (Ok localPath, h1)
    /\ f (filepath.Base localPath) <> ""
    /\ GetResource w (newClient auth) (f (filepath.Base localPath)) h1
       = (Ok resourceRet, c1, h2).
Proof.
  unfold SaveAndShare.
  destruct (FilebrowserAuth.Validate auth) eqn:Hv; [intros H; discriminate H |].
  destruct (String.eqb_spec externalURL "") as [E | Hurl]; [intros H; discriminate H |].
  destruct remotePathFn as [f |]; [| intros H; discriminate H].
  unfold bind at 1.
  destruct (DownloadToLocal w externalURL _ h) as [[localPath | msg] h1] eqn:Hd;
    cbn [fst snd]; [| intros H; discriminate H].
  destruct (String.eqb_spec (f (filepath.Base localPath)) "") as [E | Hpath];
    [intros H; discriminate H |].
  unfold bind at 1.
  destruct (GetResource w (newClient auth) _ h1) as [[[resourceRet | msg] c1] h2] eqn:Hg;
    cbn [fst snd]; [| intros H; discriminate H].
  intros _. exists f, localPath, h1, resourceRet, c1, h2. auto 10.
Qed.

(** C8.  When [SaveAndShare] succeeds, its result holds two URLs built from
    the base address of the credentials and the hash the share operation
    returned as its last step: the view URL is base/share/hash, the
    download URL base/api/public/dl/hash; the hash is not empty. *)
Theorem SaveAndShare_returns_share_urls
    (w : World) (auth : FilebrowserAuth.t) (externalURL : string)
    (remotePathFn : option (string -> string)) (actionParams : ActionParams.t)
    (h h' : History) (result : ShareResult.t) :
  SaveAndShare w auth externalURL remotePathFn actionParams h = (Ok result, h') ->
  exists (c : Client.t) (remotePath : string) (h0 : History) (c' : Client.t)
         (hash : string),
    Share w c remotePath
          (ShareParams.Expires (ActionParams.ShareParams actionParams))
          (ShareParams.Password (ActionParams.ShareParams actionParams))
          (ShareParams.Unit (ActionParams.ShareParams actionParams)) h0
      = (Ok hash, c', h')
    /\ hash <> ""
    /\ ShareResult.ViewUrl result
       = FilebrowserAuth.URL auth ++ "/share/" ++ hash
    /\ ShareResult.DownloadUrl result
       = FilebrowserAuth.URL auth ++ "/api/public/dl/" ++ hash.
Proof.
  intros H.
  destruct (SaveAndShare_ok_prefix _ _ _ _ _ _ _ _ H)
    as (f & localPath & h1 & resourceRet & c1 & h2 & -> & Hv & Hurl & Hd & Hpath & Hg).
  rewrite (SaveAndShare_after_GetResource w auth externalURL f actionParams
             h h1 h2 localPath resourceRet c1 Hv Hurl Hd Hpath Hg) in H.
  destruct (runAction_ok _ _ _ _ _ _ _ _ _ H) as (c2 & h0 & c3 & hash & Hs & ->).
  destruct (GetResource_guarded _ _ _ _ _ _ _ Hg) as (_ & _ & _ & _ & Hbase & _).
  exists c2, (f (filepath.Base localPath)), h0, c3, hash.
  split; [exact Hs |]. split; [exact (Share_ok_hash _ _ _ _ _ _ _ _ _ _ Hs) |].
  cbn [ShareResult.ViewUrl ShareResult.DownloadUrl]. rewrite Hbase.
  split; reflexivity.
Qed.

Lemma SaveAndShare_returns_share_urls_witness :
  let run := SaveAndShare worldAbsent sampleAuth "https://x/files/a.pdf"
               (Some sampleRemotePathFn) mismatchParams [] in
  let result := ShareResult.mk "https://fb.example/share/Ab3dE"
                               "https://fb.example/api/public/dl/Ab3dE" in
  run = (Ok result, snd run)
  /\ exists (c : Client.t) (remotePath : string) (h0 : History) (c' : Client.t)
            (hash : string),
       Share worldAbsent c remotePath 24 "" "hours" h0 = (Ok hash, c', snd run)
       /\ hash <> ""
       /\ ShareResult.ViewUrl result = "https://fb.example" ++ "/share/" ++ hash
       /\ ShareResult.DownloadUrl result
          = "https://fb.example" ++ "/api/public/dl/" ++ hash.
Proof.
  intros run result.
  assert (Hrun : run = (Ok result, snd run)) by reflexivity.
  split; [exact Hrun |].
  exact (SaveAndShare_returns_share_urls worldAbsent sampleAuth
           "https://x/files/a.pdf" (Some sampleRemotePathFn) mismatchParams
           [] (snd run) result Hrun).
Defined.

(** * Further properties of the package *)

(** ** Login *)

(** X1.  With a valid configuration and a delivered response, [Login] has
    three outcomes: a status other than 200 is an error and leaves the
    client as it was; status 200 with a non-empty body stores the body as
    the token and returns [nil]; status 200 with an empty body is an error
    and stores the empty token, erasing a token held before. *)
Theorem Login_outcome (w : World) (c : Client.t) (h : History) (resp : Response.t) :
  Client.Validate c = None ->
  httpDo w h (loginRequest c) = Ok resp ->
  let h' := (h ++ [CallHTTP (loginRequest c)])%list in
  (Response.StatusCode resp <> 200%Z ->
     Login w c h = (Some ("login failed with status code: "
                          ++ itoa (Response.StatusCode resp)), c, h'))
  /\ (Response.StatusCode resp = 200%Z -> Response.Body resp <> "" ->
      Login w c h = (None, Client.setToken c (Response.Body resp), h'))
  /\ (Response.StatusCode resp = 200%Z -> Response.Body resp = "" ->
      Login w c h = (Some "received empty token from server",
                     Client.setToken c "", h')).
Proof.
  intros Hv Hresp h'.
  unfold Login. rewrite Hv.
  unfold send, bind, ret, call. cbn [fst snd]. rewrite Hresp. fold h'.
  split; [| split].
  - intros N. apply Z.eqb_neq in N. rewrite N. reflexivity.
  - intros E Hb. apply Z.eqb_eq in E. rewrite E. cbn [negb].
    cbn [Client.Token Client.setToken]. rewrite (eqb_empty_false _ Hb).
    reflexivity.
  - intros E Hb. apply Z.eqb_eq in E. rewrite E, Hb. reflexivity.
Qed.

Lemma Login_outcome_witness :
  Client.Validate (Client.setToken sampleClient "stale") = None
  /\ httpDo worldPresent [] (loginRequest (Client.setToken sampleClient "stale"))
     = Ok (Response.mk 200 "secret-token")
  /\ Login worldPresent (Client.setToken sampleClient "stale") []
     = (None, authenticatedClient,
        [CallHTTP (loginRequest (Client.setToken sampleClient "stale"))]).
Proof.
  assert (Hv : Client.Validate (Client.setToken sampleClient "stale") = None)
    by reflexivity.
  assert (Hr : httpDo worldPresent []
                 (loginRequest (Client.setToken sampleClient "stale"))
               = Ok (Response.mk 200 "secret-token")) by reflexivity.
  split; [exact Hv | split; [exact Hr |]].
  refine (proj1 (proj2 (Login_outcome worldPresent
                          (Client.setToken sampleClient "stale") []
                          (Response.mk 200 "secret-token") Hv Hr)) eq_refl _).
  discriminate.
Defined.

(** X2.  A client without a token whose URL, username or password is empty
    cannot reach the server: [Login], [Share], [GetResource] and
    [DeleteResource] (the last three with a non-empty remote path) return an
    error and leave the client and the history as they were. *)
Theorem incomplete_client_sends_nothing
    (w : World) (c : Client.t) (h : History) (remotePath password unit : string)
    (expires : Z) :
  Client.URL c = "" \/ Client.Username c = "" \/ Client.Password c = "" ->
  Client.Token c = "" ->
  remotePath <> "" ->
  (exists e, Login w c h = (Some e, c, h))
  /\ (exists e, Share w c remotePath expires password unit h = (Err e, c, h))
  /\ (exists e, GetResource w c remotePath h = (Err e, c, h))
  /\ (exists e, DeleteResource w c remotePath h = (Some e, c, h)).
Proof.
  intros Hcfg Htok Hpath.
  assert (Hv : exists msg, Client.Validate c = Some msg).
  { unfold Client.Validate.
    destruct (String.eqb_spec (Client.URL c) ""); [eauto |].
    destruct (String.eqb_spec (Client.Username c) ""); [eauto |].
    destruct (String.eqb_spec (Client.Password c) ""); [eauto |].
    destruct Hcfg as [H | [H | H]]; contradiction. }
  destruct Hv as [msg Hv].
  assert (Hl : Login w c h
               = (Some ("invalid client configuration: " ++ msg), c, h)).
  { unfold Login. rewrite Hv. reflexivity. }
  assert (Ha : ensureAuthenticated w c h
               = (Some ("invalid client configuration: " ++ msg), c, h)).
  { unfold ensureAuthenticated. rewrite Htok. exact Hl. }
  split; [eexists; exact Hl |]. split; [| split].
  - unfold Share. rewrite (eqb_empty_false _ Hpath), (bind_run _ _ _ _ _ Ha).
    eexists; reflexivity.
  - unfold GetResource. rewrite (eqb_empty_false _ Hpath), (bind_run _ _ _ _ _ Ha).
    eexists; reflexivity.
  - unfold DeleteResource. rewrite (eqb_empty_false _ Hpath), (bind_run _ _ _ _ _ Ha).
    eexists; reflexivity.
Qed.

Lemma incomplete_client_sends_nothing_witness :
  (Client.URL clientWithoutURL = "" \/ Client.Username clientWithoutURL = ""
   \/ Client.Password clientWithoutURL = "")
  /\ Client.Token clientWithoutURL = ""
  /\ "uploads/a.pdf" <> ""
  /\ (exists e, Login worldPresent clientWithoutURL [] = (Some e, clientWithoutURL, []))
  /\ (exists e, Share worldPresent clientWithoutURL "uploads/a.pdf" 24 "" "hours" []
                = (Err e, clientWithoutURL, []))
  /\ (exists e, GetResource worldPresent clientWithoutURL "uploads/a.pdf" []
                = (Err e, clientWithoutURL, []))
  /\ (exists e, DeleteResource worldPresent clientWithoutURL "uploads/a.pdf" []
                = (Some e, clientWithoutURL, [])).
Proof.
  assert (Hc : Client.URL clientWithoutURL = "" \/ Client.Username clientWithoutURL = ""
               \/ Client.Password clientWithoutURL = "") by (left; reflexivity).
  assert (Hp : "uploads/a.pdf" <> "") by discriminate.
  split; [exact Hc | split; [reflexivity | split; [exact Hp |]]].
  exact (incomplete_client_sends_nothing worldPresent clientWithoutURL []
           "uploads/a.pdf" "" "hours" 24 Hc eq_refl Hp).
Defined.

(** ** The download helpers *)

(** X3.  [fileExistsWithSameSize] answers true exactly when the file exists
    and its size is read without error and equals the expected size; a
    missing file, an unreadable size and any other size all give false. *)
Theorem fileExistsWithSameSize_true_iff
    (w : World) (localPath : string) (expectedSize : Z) (h : History) :
  fst (fileExistsWithSameSize w localPath expectedSize h) = true
  <-> (fileutilIsExist w h localPath = true
       /\ fileutilFileSize w (h ++ [CallIsExist localPath])%list localPath
          = Ok expectedSize).
Proof.
  unfold fileExistsWithSameSize, bind, ret, call, convertorToInt. cbn [fst snd].
  destruct (fileutilIsExist w h localPath); cbn [negb fst].
  - destruct (fileutilFileSize w (h ++ [CallIsExist localPath])%list localPath)
      as [n | msg]; cbn [fst].
    + split.
      * intros E. apply Z.eqb_eq in E. subst n. split; reflexivity.
      * intros [_ E]. injection E as ->. apply Z.eqb_refl.
    + split; [discriminate | intros [_ E]; discriminate E].
  - split; [discriminate | intros [E _]; discriminate E].
Qed.

Lemma Clean_not_empty (path : string) : filepath.Clean path <> "".
Proof.
  unfold filepath.Clean.
  match goal with
  | |- (if ?b then _ else ?out) <> _ =>
      destruct (String.eqb_spec out "") as [E | N]; [discriminate | exact N]
  end.
Qed.

Lemma Base_not_empty (path : string) : filepath.Base path <> "".
Proof.
  unfold filepath.Base. destruct (path =? ""); [discriminate |].
  assert (Hl : forall segs s, filepath.lastNonEmpty segs = Some s -> s <> "").
  { induction segs as [| x xs IH]; intros s; cbn [filepath.lastNonEmpty].
    - discriminate.
    - destruct (filepath.lastNonEmpty xs) as [y |] eqn:E.
      + intros H; injection H as <-. apply IH. reflexivity.
      + destruct (String.eqb_spec x ""); [discriminate |].
        intros H; injection H as <-. assumption. }
  destruct (filepath.lastNonEmpty _) as [s |] eqn:E; [| discriminate].
  exact (Hl _ _ E).
Qed.

Lemma LocalPathForDownload_not_empty (w : World) (fileURL : string) :
  LocalPathForDownload w fileURL <> "".
Proof.
  assert (Hjoin : forall a b : string, b <> "" -> filepath.Join [a; b] <> "").
  { intros a b Hb. cbn [filepath.Join]. rewrite (eqb_empty_false _ Hb).
    destruct (a =? ""); apply Clean_not_empty. }
  unfold LocalPathForDownload. destruct (url.Parse fileURL) as [u |].
  - apply Hjoin.
    destruct (String.eqb_spec (strings.TrimPrefix (url.Path u) "/") "");
      [discriminate | assumption].
  - apply Hjoin, Base_not_empty.
Qed.

(** [EnsureFolderForFile] on a path that is not empty: one call. *)
Lemma EnsureFolderForFile_run (w : World) (localPath : string) (h : History) :
  localPath <> "" ->
  EnsureFolderForFile w localPath h
  = (match fileutilCreateDir w h (filepath.Dir localPath) with
     | Some e =>
         Some ("failed to create directory " ++ filepath.Dir localPath ++ ": " ++ e)
     | None => None
     end, (h ++ [CallCreateDir (filepath.Dir localPath)])%list).
Proof.
  intros Hne. unfold EnsureFolderForFile. rewrite (eqb_empty_false _ Hne).
  unfold bind, ret, call. cbn [fst snd].
  destruct (fileutilCreateDir w h _); reflexivity.
Qed.

(** X4.  [LocalPathForDownload] never returns the empty path, whatever the
    URL and the temp directory, so inside [DownloadToLocal] the empty-path
    error of [EnsureFolderForFile] cannot occur: the directory of the local
    path is created by exactly one call, and only its failure is reported. *)
Theorem LocalPathForDownload_never_empty (w : World) (fileURL : string) (h : History) :
  LocalPathForDownload w fileURL <> ""
  /\ EnsureFolderForFile w (LocalPathForDownload w fileURL) h
     = (match fileutilCreateDir w h (filepath.Dir (LocalPathForDownload w fileURL)) with
        | Some e =>
            Some ("failed to create directory "
                  ++ filepath.Dir (LocalPathForDownload w fileURL) ++ ": " ++ e)
        | None => None
        end,
        (h ++ [CallCreateDir (filepath.Dir (LocalPathForDownload w fileURL))])%list).
Proof.
  split.
  - apply LocalPathForDownload_not_empty.
  - apply EnsureFolderForFile_run, LocalPathForDownload_not_empty.
Qed.

(** X5.  Once the directory exists, [DownloadToLocal] with a known size
    (greater than zero) returns the local path without fetching when the
    file is there with exactly that size: it only asks for existence and
    size.  When the file is missing, or its size differs, the file is
    fetched again and the result is that of the fetch. *)
Theorem DownloadToLocal_fetches_unless_cached
    (w : World) (fileURL : string) (fileSize : Z) (h h1 : History) :
  fileURL <> "" ->
  (0 < fileSize)%Z ->
  let localPath := LocalPathForDownload w fileURL in
  EnsureFolderForFile w localPath h = (None, h1) ->
  let asked := (h1 ++ [CallIsExist localPath])%list in
  let sized := (asked ++ [CallFileSize localPath])%list in
  let fetch (h0 : History) :=
    (match netutilDownloadFile w h0 localPath fileURL with
     | Some e => Err ("failed to download file from " ++ fileURL ++ ": " ++ e)
     | None => Ok localPath
     end, (h0 ++ [CallDownloadFile localPath fileURL])%list) in
  (fileutilIsExist w h1 localPath = true ->
   fileutilFileSize w asked localPath = Ok fileSize ->
   DownloadToLocal w fileURL fileSize h = (Ok localPath, sized))
  /\ (fileutilIsExist w h1 localPath = false ->
      DownloadToLocal w fileURL fileSize h = fetch asked)
  /\ (forall n : Z,
        fileutilIsExist w h1 localPath = true ->
        fileutilFileSize w asked localPath = Ok n ->
        n <> fileSize ->
        DownloadToLocal w fileURL fileSize h = fetch sized).
Proof.
  intros Hurl Hpos localPath Hdir asked sized fetch.
  assert (Hguard : (0 <? fileSize)%Z = true) by (apply Z.ltb_lt; exact Hpos).
  assert (Hrun : DownloadToLocal w fileURL fileSize h
                 = (let r := fileExistsWithSameSize w localPath fileSize h1 in
                    if fst r then (Ok localPath, snd r) else fetch (snd r))).
  { unfold DownloadToLocal. rewrite (eqb_empty_false _ Hurl).
    fold localPath. rewrite (bind_run _ _ _ _ _ Hdir).
    unfold localCacheCheck. rewrite Hguard.
    unfold bind at 1. cbv zeta.
    destruct (fst (fileExistsWithSameSize w localPath fileSize h1)); [reflexivity |].
    unfold fetch, bind, ret, call. cbn [fst snd].
    destruct (netutilDownloadFile w _ localPath fileURL); reflexivity. }
  rewrite Hrun. clear Hrun.
  unfold fileExistsWithSameSize, bind, ret, call, convertorToInt. cbn [fst snd].
  fold asked.
  split; [| split].
  - intros He Hs. rewrite He. cbn [negb fst snd]. rewrite Hs. cbn [fst snd].
    rewrite Z.eqb_refl. reflexivity.
  - intros He. rewrite He. reflexivity.
  - intros n He Hs Hn. rewrite He. cbn [negb fst snd]. rewrite Hs. cbn [fst snd].
    apply Z.eqb_neq in Hn. rewrite Hn. reflexivity.
Qed.

Lemma DownloadToLocal_fetches_unless_cached_witness :
  "https://x/a.pdf" <> ""
  /\ (0 < 5)%Z
  /\ EnsureFolderForFile worldCached "/tmp/a.pdf" [] = (None, [CallCreateDir "/tmp"])
  /\ fileutilIsExist worldCached [CallCreateDir "/tmp"] "/tmp/a.pdf" = true
  /\ fileutilFileSize worldCached [CallCreateDir "/tmp"; CallIsExist "/tmp/a.pdf"]
       "/tmp/a.pdf" = Ok 5%Z
  /\ DownloadToLocal worldCached "https://x/a.pdf" 5 []
     = (Ok "/tmp/a.pdf",
        [CallCreateDir "/tmp"; CallIsExist "/tmp/a.pdf"; CallFileSize "/tmp/a.pdf"]).
Proof.
  assert (Hurl : "https://x/a.pdf" <> "") by discriminate.
  assert (Hpos : (0 < 5)%Z) by lia.
  assert (Hdir : EnsureFolderForFile worldCached
                   (LocalPathForDownload worldCached "https://x/a.pdf") []
                 = (None, [CallCreateDir "/tmp"])) by reflexivity.
  split; [exact Hurl | split; [exact Hpos | split; [exact Hdir |]]].
  split; [reflexivity | split; [reflexivity |]].
  exact (proj1 (DownloadToLocal_fetches_unless_cached worldCached
                  "https://x/a.pdf" 5 [] [CallCreateDir "/tmp"] Hurl Hpos Hdir)
           eq_refl eq_refl).
Defined.

(** ** Uploading *)

(** X6.  [Upload] requires the local file: when [os.Stat] reports that it
    does not exist, [Upload] returns an error right after that one look at
    the file system, before any authentication, with the client unchanged,
    also when the client holds no token yet. *)
Theorem Upload_requires_local_file
    (w : World) (c : Client.t) (localPath remotePath : string) (h : History) :
  localPath <> "" ->
  remotePath <> "" ->
  osStatIsNotExist w h localPath = true ->
  Upload w c localPath remotePath h
  = (Some ("local file does not exist: " ++ localPath), c,
     (h ++ [CallStat localPath])%list).
Proof.
  intros Hl Hr Hstat. unfold Upload.
  rewrite (eqb_empty_false _ Hl), (eqb_empty_false _ Hr).
  unfold bind, ret, call. cbn [fst snd]. rewrite Hstat. reflexivity.
Qed.

Lemma Upload_requires_local_file_witness :
  "/tmp/a.pdf" <> ""
  /\ "uploads/a.pdf" <> ""
  /\ osStatIsNotExist (withMissingLocalFile worldAbsent) [] "/tmp/a.pdf" = true
  /\ Upload (withMissingLocalFile worldAbsent) sampleClient "/tmp/a.pdf"
            "uploads/a.pdf" []
     = (Some ("local file does not exist: " ++ "/tmp/a.pdf"), sampleClient,
        ([] ++ [CallStat "/tmp/a.pdf"])%list).
Proof.
  assert (Hl : "/tmp/a.pdf" <> "") by discriminate.
  assert (Hr : "uploads/a.pdf" <> "") by discriminate.
  split; [exact Hl | split; [exact Hr | split; [reflexivity |]]].
  exact (Upload_requires_local_file (withMissingLocalFile worldAbsent) sampleClient
           "/tmp/a.pdf" "uploads/a.pdf" [] Hl Hr eq_refl).
Defined.



(** ** The orchestrator, stage by stage *)

(** [SaveAndShare] as a case analysis over its stages. *)
Lemma SaveAndShare_cases
    (w : World) (auth : FilebrowserAuth.t) (externalURL : string)
    (remotePathFn : option (string -> string)) (actionParams : ActionParams.t)
    (h : History) :
  SaveAndShare w auth externalURL remotePathFn actionParams h =
    match FilebrowserAuth.Validate auth with
    | Some e => (Err ("invalid authentication: " ++ e), h)
    | None =>
      if externalURL =? "" then (Err "external URL cannot be empty", h)
      else
        match remotePathFn with
        | None => (Err "remote path function cannot be nil", h)
        | Some f =>
          match DownloadToLocal w externalURL (ActionParams.FileSize actionParams) h with
          | (Err e, h1) => (Err ("failed to download file: " ++ e), h1)
          | (Ok localPath, h1) =>
            let remotePath := f (filepath.Base localPath) in
            if remotePath =? "" then (Err "remote path cannot be empty", h1)
            else
              match GetResource w (newClient auth) remotePath h1 with
              | (Err e, _, h2) => (Err ("failed to get resource info: " ++ e), h2)
              | (Ok resourceRet, c1, h2) =>
                  runAction w
                    (syncPolicy (negb (RespResource.NotExist resourceRet))
                                (ActionParams.Force actionParams)
                                (ActionParams.FileSize actionParams)
                                (RespResource.Size resourceRet))
                    c1 localPath remotePath actionParams h2
              end
          end
        end
    end.
Proof.
  destruct (FilebrowserAuth.Validate auth) as [msg |] eqn:Hv.
  { unfold SaveAndShare. rewrite Hv. reflexivity. }
  destruct (String.eqb_spec externalURL "") as [E | Hurl].
  { unfold SaveAndShare. rewrite Hv, E. reflexivity. }
  destruct remotePathFn as [f |].
  2: { unfold SaveAndShare. rewrite Hv, (eqb_empty_false _ Hurl). reflexivity. }
  destruct (DownloadToLocal w externalURL (ActionParams.FileSize actionParams) h)
    as [[localPath | msg] h1] eqn:Hd.
  2: { unfold SaveAndShare.
       rewrite Hv, (eqb_empty_false _ Hurl), (bind_run _ _ _ _ _ Hd). reflexivity. }
  cbv zeta.
  destruct (String.eqb_spec (f (filepath.Base localPath)) "") as [E | Hpath].
  { unfold SaveAndShare.
    rewrite Hv, (eqb_empty_false _ Hurl), (bind_run _ _ _ _ _ Hd). cbn match.
    rewrite E. reflexivity. }
  destruct (GetResource w (newClient auth) (f (filepath.Base localPath)) h1)
    as [[[resourceRet | msg] c1] h2] eqn:Hg.
  - apply (SaveAndShare_after_GetResource w auth externalURL f actionParams h h1 h2);
      assumption.
  - unfold SaveAndShare.
    rewrite Hv, (eqb_empty_false _ Hurl), (bind_run _ _ _ _ _ Hd). cbn match.
    rewrite (eqb_empty_false _ Hpath), (bind_run _ _ _ _ _ Hg). reflexivity.
Qed.

(** X8.  [SaveAndShare] checks its inputs before doing anything: with
    credentials that do not validate, an empty external URL or a nil remote
    path function it returns an error and makes no call at all, neither to
    the file system nor to the network. *)
Theorem SaveAndShare_rejects_bad_input_up_front
    (w : World) (auth : FilebrowserAuth.t) (externalURL : string)
    (remotePathFn : option (string -> string)) (actionParams : ActionParams.t)
    (h : History) :
  FilebrowserAuth.Validate auth <> None \/ externalURL = "" \/ remotePathFn = None ->
  exists e : string,
    SaveAndShare w auth externalURL remotePathFn actionParams h = (Err e, h).
Proof.
  intros Hbad. rewrite SaveAndShare_cases.
  destruct (FilebrowserAuth.Validate auth) as [msg |]; [eexists; reflexivity |].
  destruct (String.eqb_spec externalURL "") as [E | Hurl]; [eexists; reflexivity |].
  destruct remotePathFn as [f |]; [| eexists; reflexivity].
  destruct Hbad as [H | [H | H]]; [contradiction | contradiction | discriminate H].
Qed.

Lemma SaveAndShare_rejects_bad_input_witness :
  (FilebrowserAuth.Validate sampleAuth <> None \/ "" = ""
   \/ Some sampleRemotePathFn = None)
  /\ exists e : string,
       SaveAndShare worldPresent sampleAuth "" (Some sampleRemotePathFn)
                    mismatchParams [] = (Err e, []).
Proof.
  assert (Hbad : FilebrowserAuth.Validate sampleAuth <> None \/ "" = ""
                 \/ Some sampleRemotePathFn = None) by (right; left; reflexivity).
  split; [exact Hbad |].
  exact (SaveAndShare_rejects_bad_input_up_front worldPresent sampleAuth ""
           (Some sampleRemotePathFn) mismatchParams [] Hbad).
Defined.

(** X9.  When the remote path function returns the empty path,
    [SaveAndShare] fails after the download and before the client exists:
    the history is that of the download, so nothing was sent to the
    Filebrowser server. *)
Theorem SaveAndShare_empty_remote_path
    (w : World) (auth : FilebrowserAuth.t) (externalURL : string)
    (f : string -> string) (actionParams : ActionParams.t)
    (h h1 : History) (localPath : string) :
  FilebrowserAuth.Validate auth = None ->
  externalURL <> "" ->
  DownloadToLocal w externalURL (ActionParams.FileSize actionParams) h
    = (Ok localPath, h1) ->
  f (filepath.Base localPath) = "" ->
  SaveAndShare w auth externalURL (Some f) actionParams h
    = (Err "remote path cannot be empty", h1).
Proof.
  intros Hv Hurl Hd Hf.
  rewrite SaveAndShare_cases, Hv, (eqb_empty_false _ Hurl), Hd. cbv zeta.
  rewrite Hf. reflexivity.
Qed.

Lemma SaveAndShare_empty_remote_path_witness :
  let h1 := snd (DownloadToLocal worldPresent "https://x/files/a.pdf" 5 []) in
  FilebrowserAuth.Validate sampleAuth = None
  /\ "https://x/files/a.pdf" <> ""
  /\ DownloadToLocal worldPresent "https://x/files/a.pdf" 5 []
     = (Ok "/tmp/files/a.pdf", h1)
  /\ emptyRemotePathFn (filepath.Base "/tmp/files/a.pdf") = ""
  /\ SaveAndShare worldPresent sampleAuth "https://x/files/a.pdf"
                  (Some emptyRemotePathFn) mismatchParams []
     = (Err "remote path cannot be empty", h1).
Proof.
  intros h1.
  assert (Hv : FilebrowserAuth.Validate sampleAuth = None) by reflexivity.
  assert (Hurl : "https://x/files/a.pdf" <> "") by discriminate.
  assert (Hd : DownloadToLocal worldPresent "https://x/files/a.pdf"
                 (ActionParams.FileSize mismatchParams) []
               = (Ok "/tmp/files/a.pdf", h1)) by reflexivity.
  split; [exact Hv | split; [exact Hurl | split; [exact Hd | split; [reflexivity |]]]].
  exact (SaveAndShare_empty_remote_path worldPresent sampleAuth
           "https://x/files/a.pdf" emptyRemotePathFn mismatchParams [] h1
           "/tmp/files/a.pdf" Hv Hurl Hd eq_refl).
Defined.



(** ** Histories of whole runs *)

Lemma Quiet_refl (h : History) : Quiet h h.
Proof. exists []. rewrite app_nil_r. repeat split. Qed.

Lemma Quiet_after (h h' : History) (x : Call) :
  Quiet h h' -> carriesToken x = true -> isLogin x = false ->
  Quiet h (h' ++ [x])%list.
Proof.
  intros (new & -> & Hall & Hzero) Hx Hl.
  exists (new ++ [x])%list.
  rewrite app_assoc, forallb_app, Hall, logins_app, Hzero.
  unfold logins. cbn [List.forallb List.filter]. rewrite Hx, Hl.
  repeat split.
Qed.

Lemma Quiet_trans (h h1 h2 : History) : Quiet h h1 -> Quiet h1 h2 -> Quiet h h2.
Proof.
  intros (n1 & -> & A1 & Z1) (n2 & -> & A2 & Z2).
  exists (n1 ++ n2)%list.
  rewrite app_assoc, forallb_app, A1, A2, logins_app, Z1, Z2. repeat split.
Qed.

(** With a token held, a guarded operation is quiet and keeps the client. *)
Lemma Guarded_held (c c' : Client.t) (h h' : History) :
  Guarded c h c' h' -> Client.Token c <> "" -> c' = c /\ Quiet h h'.
Proof.
  intros (new & -> & Hall & _ & _ & _ & Hc) Hheld.
  destruct (Hc Hheld) as [-> Hzero].
  split; [reflexivity |]. exists new. repeat split; assumption.
Qed.

(** The download stage talks to the file system and the source only. *)
Lemma DownloadToLocal_quiet (w : World) (fileURL : string) (fileSize : Z)
    (h : History) :
  Quiet h (snd (DownloadToLocal w fileURL fileSize h)).
Proof.
  unfold DownloadToLocal, EnsureFolderForFile, localCacheCheck,
    fileExistsWithSameSize, convertorToInt, bind, ret, call.
  cbn [fst snd].
  repeat match goal with
         | |- context [if ?b then _ else _] => destruct b; cbn [fst snd negb]
         | |- context [match ?x with _ => _ end] => destruct x; cbn [fst snd negb]
         end;
    repeat (apply Quiet_after; [| reflexivity | reflexivity]);
    apply Quiet_refl.
Qed.

Lemma GetResource_ok_token (w : World) (c c' : Client.t) (remotePath : string)
    (h h' : History) (r : RespResource.t) :
  GetResource w c remotePath h = (Ok r, c', h') -> Client.Token c' <> "".
Proof.
  destruct (String.eqb_spec remotePath "") as [-> | Hpath];
    [intros H; discriminate H |].
  destruct (ensureAuthenticated w c h) as [[ea c1] h1] eqn:Ha.
  destruct ea as [msg |].
  - unfold GetResource. rewrite (eqb_empty_false _ Hpath), (bind_run _ _ _ _ _ Ha).
    intros H; discriminate H.
  - rewrite (GetResource_run w c c1 remotePath h h1 Hpath Ha).
    intros H. injection H as _ <- _.
    exact (proj2 (ensureAuthenticated_guarded _ _ _ _ _ _ Ha) eq_refl).
Qed.

(** With a token held, an action adds no login exchange. *)
Lemma runAction_quiet (w : World) (a : Action) (c : Client.t)
    (localPath remotePath : string) (actionParams : ActionParams.t) (h : History) :
  Client.Token c <> "" ->
  Quiet h (snd (runAction w a c localPath remotePath actionParams h)).
Proof.
  intros Hheld.
  assert (Hshare : forall h0, Quiet h0 (snd (shareStage w c remotePath actionParams h0))).
  { intros h0. unfold shareStage, bind, ret.
    destruct (Share w c remotePath _ _ _ h0) as [[r c'] h1] eqn:E. cbn [fst snd].
    destruct (Guarded_held _ _ _ _ (Share_guarded _ _ _ _ _ _ _ _ _ _ E) Hheld)
      as [_ Q].
    destruct r; exact Q. }
  assert (Hup : forall h0,
             Quiet h0 (snd (uploadStage w c localPath remotePath actionParams h0))).
  { intros h0. unfold uploadStage, bind, ret.
    destruct (Upload w c localPath remotePath h0) as [[e c'] h1] eqn:E. cbn [fst snd].
    destruct (Guarded_held _ _ _ _ (Upload_guarded _ _ _ _ _ _ _ _ E) Hheld)
      as [-> Q].
    destruct e; [exact Q |]. exact (Quiet_trans _ _ _ Q (Hshare h1)). }
  destruct a; cbn [runAction].
  - apply Hshare.
  - unfold deleteStage, bind, ret.
    destruct (DeleteResource w c remotePath h) as [[e c'] h1] eqn:E. cbn [fst snd].
    destruct (Guarded_held _ _ _ _ (DeleteResource_guarded _ _ _ _ _ _ _ E) Hheld)
      as [-> Q].
    destruct e; [exact Q |]. exact (Quiet_trans _ _ _ Q (Hup h1)).
  - apply Hup.
Qed.

(** X11.  Whatever its inputs and whatever the world answers, a run of
    [SaveAndShare] only extends the history, performs at most one login
    exchange, and never sends a request or starts a transfer with an empty
    token. *)
Theorem SaveAndShare_logs_in_at_most_once
    (w : World) (auth : FilebrowserAuth.t) (externalURL : string)
    (remotePathFn : option (string -> string)) (actionParams : ActionParams.t)
    (h : History) :
  exists new : History,
    snd (SaveAndShare w auth externalURL remotePathFn actionParams h)
      = (h ++ new)%list
    /\ List.forallb carriesToken new = true
    /\ logins new <= 1.
Proof.
  assert (Hq : forall h', Quiet h h' ->
                 exists new, h' = (h ++ new)%list
                             /\ List.forallb carriesToken new = true
                             /\ logins new <= 1).
  { intros h' (new & -> & A & Z). exists new. rewrite Z. auto. }
  rewrite SaveAndShare_cases.
  destruct (FilebrowserAuth.Validate auth); [apply Hq, Quiet_refl |].
  destruct (externalURL =? ""); [apply Hq, Quiet_refl |].
  destruct remotePathFn as [f |]; [| apply Hq, Quiet_refl].
  pose proof (DownloadToLocal_quiet w externalURL
                (ActionParams.FileSize actionParams) h) as Qd.
  destruct (DownloadToLocal w externalURL (ActionParams.FileSize actionParams) h)
    as [[localPath | msg] h1]; cbn [snd] in Qd; [| apply Hq; exact Qd].
  cbv zeta.
  destruct (f (filepath.Base localPath) =? ""); [apply Hq; exact Qd |].
  destruct (GetResource w (newClient auth) (f (filepath.Base localPath)) h1)
    as [[r c1] h2] eqn:Hg.
  pose proof (GetResource_guarded _ _ _ _ _ _ _ Hg)
    as (n2 & -> & A2 & L2 & _).
  destruct Qd as (n1 & -> & A1 & Z1).
  destruct r as [resourceRet | msg].
  - pose proof (runAction_quiet w
                  (syncPolicy (negb (RespResource.NotExist resourceRet))
                              (ActionParams.Force actionParams)
                              (ActionParams.FileSize actionParams)
                              (RespResource.Size resourceRet))
                  c1 localPath (f (filepath.Base localPath)) actionParams
                  ((h ++ n1) ++ n2)%list (GetResource_ok_token _ _ _ _ _ _ _ Hg))
      as (n3 & E3 & A3 & Z3).
    exists (n1 ++ n2 ++ n3)%list. rewrite E3.
    repeat rewrite forallb_app. repeat rewrite logins_app.
    rewrite A1, A2, A3, Z1, Z3. repeat rewrite <- app_assoc.
    split; [reflexivity | split; [reflexivity | lia]].
  - exists (n1 ++ n2)%list. cbn [snd].
    rewrite forallb_app, logins_app, A1, A2, Z1, <- app_assoc.
    split; [reflexivity | split; [reflexivity | lia]].
Qed.

(** ** Clients over their lifetime *)

(** X12.  No sequence of operations changes the URL or the credentials of a
    client; the history only grows, and every call added carries a non-empty
    token where it has a place for one. *)
Theorem operations_keep_the_configuration
    (w : World) (ops : list Op) (c : Client.t) (h : History) :
  Client.URL (fst (runOps w ops c h)) = Client.URL c
  /\ Client.ReqLogin (fst (runOps w ops c h)) = Client.ReqLogin c
  /\ exists new : History,
       snd (runOps w ops c h) = (h ++ new)%list
       /\ List.forallb carriesToken new = true.
Proof.
  revert c h. induction ops as [| op ops IH]; intros c h.
  - cbn. repeat split. exists []. rewrite app_nil_r. split; reflexivity.
  - cbn [runOps]. unfold bind.
    destruct (runOp w op c h) as [c1 h1] eqn:E. cbn [fst snd].
    destruct (runOp_guarded w op c c1 h h1 E) as (n1 & -> & A1 & _ & Hu & Hr & _).
    destruct (IH c1 (h ++ n1)%list) as (IHu & IHr & n2 & -> & A2).
    rewrite IHu, IHr, Hu, Hr. repeat split.
    exists (n1 ++ n2)%list. rewrite forallb_app, A1, A2, app_assoc.
    split; reflexivity.
Qed.

Lemma Share_ok_token (w : World) (c c' : Client.t) (remotePath : string)
    (expires : Z) (password unit : string) (h h' : History) (hash : string) :
  Share w c remotePath expires password unit h = (Ok hash, c', h') ->
  Client.Token c' <> "".
Proof.
  destruct (String.eqb_spec remotePath "") as [-> | Hpath];
    [intros H; discriminate H |].
  destruct (ensureAuthenticated w c h) as [[ea c1] h1] eqn:Ha.
  destruct ea as [msg |].
  - unfold Share. rewrite (eqb_empty_false _ Hpath), (bind_run _ _ _ _ _ Ha).
    intros H; discriminate H.
  - rewrite (Share_run w c c1 remotePath expires password unit h h1 Hpath Ha).
    intros H. injection H as _ <- _.
    exact (proj2 (ensureAuthenticated_guarded _ _ _ _ _ _ Ha) eq_refl).
Qed.

Lemma DeleteResource_ok_token (w : World) (c c' : Client.t) (remotePath : string)
    (h h' : History) :
  DeleteResource w c remotePath h = (None, c', h') -> Client.Token c' <> "".
Proof.
  destruct (String.eqb_spec remotePath "") as [-> | Hpath];
    [intros H; discriminate H |].
  destruct (ensureAuthenticated w c h) as [[ea c1] h1] eqn:Ha.
  destruct ea as [msg |].
  - unfold DeleteResource.
    rewrite (eqb_empty_false _ Hpath), (bind_run _ _ _ _ _ Ha).
    intros H; discriminate H.
  - rewrite (DeleteResource_run w c c1 remotePath h h1 Hpath Ha).
    intros H. injection H as _ <- _.
    exact (proj2 (ensureAuthenticated_guarded _ _ _ _ _ _ Ha) eq_refl).
Qed.

Lemma Upload_ok_token (w : World) (c c' : Client.t) (localPath remotePath : string)
    (h h' : History) :
  Upload w c localPath remotePath h = (None, c', h') -> Client.Token c' <> "".
Proof.
  unfold Upload.
  destruct (localPath =? ""); [intros H; discriminate H |].
  destruct (remotePath =? ""); [intros H; discriminate H |].
  unfold bind, ret, call. cbn [fst snd].
  destruct (osStatIsNotExist w h localPath); [intros H; discriminate H |].
  destruct (ensureAuthenticated w c (h ++ [CallStat localPath])%list)
    as [[ea c1] h1] eqn:Ha.
  destruct (ensureAuthenticated_guarded _ _ _ _ _ _ Ha) as [_ T].
  cbn [fst snd].
  destruct ea as [msg |]; [intros H; discriminate H |].
  specialize (T eq_refl).
  repeat match goal with
         | |- context [match ?x with _ => _ end] => destruct x
         end;
    intros H; try discriminate H; injection H as <- _; exact T.
Qed.

(** X13.  An operation that succeeds leaves the client authenticated: after
    [Upload] or [DeleteResource] returned [nil], or [Share] or [GetResource]
    returned a result, the client holds a non-empty token. *)
Theorem successful_operation_holds_a_token
    (w : World) (c c' : Client.t) (h h' : History) :
  (forall localPath remotePath,
      Upload w c localPath remotePath h = (None, c', h') -> Client.Token c' <> "")
  /\ (forall remotePath expires password unit hash,
        Share w c remotePath expires password unit h = (Ok hash, c', h') ->
        Client.Token c' <> "")
  /\ (forall remotePath r,
        GetResource w c remotePath h = (Ok r, c', h') -> Client.Token c' <> "")
  /\ (forall remotePath,
        DeleteResource w c remotePath h = (None, c', h') -> Client.Token c' <> "").
Proof.
  split; [| split; [| split]].
  - intros localPath remotePath. apply Upload_ok_token.
  - intros remotePath expires password unit hash. apply Share_ok_token.
  - intros remotePath r. apply GetResource_ok_token.
  - intros remotePath. apply DeleteResource_ok_token.
Qed.

(** ** What a run never sends *)

Lemma Without_refl (p : Call -> bool) (h : History) : Without p h h.
Proof. exists []. rewrite app_nil_r. split; reflexivity. Qed.

Lemma Without_after (p : Call -> bool) (h h' : History) (x : Call) :
  Without p h h' -> p x = false -> Without p h (h' ++ [x])%list.
Proof.
  intros (new & -> & Hall) Hx. exists (new ++ [x])%list.
  rewrite app_assoc, forallb_app, Hall. cbn [List.forallb]. rewrite Hx.
  split; reflexivity.
Qed.

Lemma Without_trans (p : Call -> bool) (h h1 h2 : History) :
  Without p h h1 -> Without p h1 h2 -> Without p h h2.
Proof.
  intros (n1 & -> & A1) (n2 & -> & A2). exists (n1 ++ n2)%list.
  rewrite app_assoc, forallb_app, A1, A2. split; reflexivity.
Qed.

(** Case analysis on every test of a run, then one step per call. *)
Ltac without_calls :=
  cbn [fst snd];
  repeat match goal with
         | |- context [if ?b then _ else _] => destruct b; cbn [fst snd negb]
         | |- context [match ?x with _ => _ end] => destruct x; cbn [fst snd negb]
         end;
  repeat (apply Without_after; [| reflexivity]);
  apply Without_refl.


Lemma DownloadToLocal_without_delete (w : World) (fileURL : string) (fileSize : Z)
    (h : History) :
  Without isDelete h (snd (DownloadToLocal w fileURL fileSize h)).
Proof.
  unfold DownloadToLocal, EnsureFolderForFile, localCacheCheck,
    fileExistsWithSameSize, convertorToInt, bind, ret, call.
  without_calls.
Qed.

Lemma GetResource_without_delete (w : World) (c : Client.t) (remotePath : string)
    (h : History) :
  Without isDelete h (snd (GetResource w c remotePath h)).
Proof.
  unfold GetResource, ensureAuthenticated, Login, sendInto, send, bind, ret, call.
  without_calls.
Qed.

Lemma Share_without_delete (w : World) (c : Client.t) (remotePath : string)
    (expires : Z) (password unit : string) (h : History) :
  Without isDelete h (snd (Share w c remotePath expires password unit h)).
Proof.
  unfold Share, ensureAuthenticated, Login, sendInto, send, bind, ret, call.
  without_calls.
Qed.

Lemma Upload_without_delete (w : World) (c : Client.t) (localPath remotePath : string)
    (h : History) :
  Without isDelete h (snd (Upload w c localPath remotePath h)).
Proof.
  unfold Upload, ensureAuthenticated, Login, send, bind, ret, call.
  without_calls.
Qed.

Lemma shareStage_without_delete (w : World) (c : Client.t) (remotePath : string)
    (actionParams : ActionParams.t) (h : History) :
  Without isDelete h (snd (shareStage w c remotePath actionParams h)).
Proof.
  unfold shareStage, bind, ret.
  pose proof (Share_without_delete w c remotePath
                (ShareParams.Expires (ActionParams.ShareParams actionParams))
                (ShareParams.Password (ActionParams.ShareParams actionParams))
                (ShareParams.Unit (ActionParams.ShareParams actionParams)) h) as Q.
  destruct (Share w c remotePath _ _ _ h) as [[[hash | msg] c'] h1]; exact Q.
Qed.

Lemma uploadStage_without_delete (w : World) (c : Client.t)
    (localPath remotePath : string) (actionParams : ActionParams.t) (h : History) :
  Without isDelete h (snd (uploadStage w c localPath remotePath actionParams h)).
Proof.
  unfold uploadStage, bind, ret.
  pose proof (Upload_without_delete w c localPath remotePath h) as Q.
  destruct (Upload w c localPath remotePath h) as [[[msg |] c'] h1];
    cbn [fst snd] in *; [exact Q |].
  exact (Without_trans _ _ _ _ Q (shareStage_without_delete w c' remotePath actionParams h1)).
Qed.

(** X14.  [SaveAndShare] deletes only by its policy.  When the metadata
    request found no resource, or found one while the force flag is off and
    the expected size is unknown or equal to the remote size, the whole run
    sends no DELETE request.  When it found one and the force flag is on, or
    the expected size is known and differs, the request right after the
    metadata request is the DELETE of that resource, with the token. *)
Theorem SaveAndShare_deletes_only_by_policy
    (w : World) (auth : FilebrowserAuth.t) (externalURL : string)
    (f : string -> string) (actionParams : ActionParams.t)
    (h h1 h2 : History) (localPath : string) (resourceRet : RespResource.t)
    (c1 : Client.t) :
  FilebrowserAuth.Validate auth = None ->
  externalURL <> "" ->
  DownloadToLocal w externalURL (ActionParams.FileSize actionParams) h
    = (Ok localPath, h1) ->
  f (filepath.Base localPath) <> "" ->
  GetResource w (newClient auth) (f (filepath.Base localPath)) h1
    = (Ok resourceRet, c1, h2) ->
  let run := SaveAndShare w auth externalURL (Some f) actionParams h in
  let expected := ActionParams.FileSize actionParams in
  let remote := RespResource.Size resourceRet in
  (RespResource.NotExist resourceRet = true
   \/ (ActionParams.Force actionParams = false
       /\ ((expected <= 0)%Z \/ expected = remote)) ->
   Without isDelete h (snd run))
  /\ (RespResource.NotExist resourceRet = false ->
      ActionParams.Force actionParams = true
      \/ ((expected > 0)%Z /\ expected <> remote) ->
      exists rest : History,
        snd run
        = (h2 ++ CallHTTP (deleteRequest c1 (f (filepath.Base localPath))) :: rest)%list).
Proof.
  intros Hv Hurl Hd Hpath Hg run expected remote.
  assert (Hrun : run = _)
    by (unfold run;
        apply (SaveAndShare_after_GetResource w auth externalURL f actionParams
                 h h1 h2 localPath resourceRet c1 Hv Hurl Hd Hpath Hg)).
  fold expected remote in Hrun.
  split.
  - intros Hcase.
    assert (Hpre : Without isDelete h h2).
    { pose proof (DownloadToLocal_without_delete w externalURL expected h) as Q1.
      unfold expected in Q1. rewrite Hd in Q1.
      pose proof (GetResource_without_delete w (newClient auth)
                    (f (filepath.Base localPath)) h1) as Q2.
      rewrite Hg in Q2. exact (Without_trans _ _ _ _ Q1 Q2). }
    rewrite Hrun. apply (Without_trans _ _ _ _ Hpre).
    unfold syncPolicy.
    destruct Hcase as [Hne | [Hforce Hsize]].
    + rewrite Hne. cbn [negb runAction]. apply uploadStage_without_delete.
    + rewrite Hforce.
      destruct (RespResource.NotExist resourceRet); cbn [negb runAction];
        [apply uploadStage_without_delete |].
      assert (Hskip : ((expected <=? 0)%Z || (expected =? remote)%Z) = true).
      { destruct Hsize as [Hle | Heq].
        - apply Z.leb_le in Hle. rewrite Hle. reflexivity.
        - apply Z.eqb_eq in Heq. rewrite Heq. apply orb_true_r. }
      rewrite Hskip. cbn [runAction]. apply shareStage_without_delete.
  - intros Hex Hcase.
    assert (Hact : syncPolicy (negb (RespResource.NotExist resourceRet))
                     (ActionParams.Force actionParams) expected remote
                   = ActDeleteThenUpload).
    { unfold syncPolicy. rewrite Hex. cbn [negb].
      destruct (ActionParams.Force actionParams); [reflexivity |].
      destruct Hcase as [Hforce | [Hpos Hne]]; [discriminate Hforce |].
      destruct (Z.leb_spec expected 0), (Z.eqb_spec expected remote);
        try reflexivity; try lia; contradiction. }
    rewrite Hrun, Hact. cbn [runAction]. unfold deleteStage.
    pose proof (GetResource_ok_token _ _ _ _ _ _ _ Hg) as Htok.
    rewrite (bind_run _ _ _ _ _
               (DeleteResource_run w c1 c1 (f (filepath.Base localPath)) h2 h2 Hpath
                  (ensureAuthenticated_token_held w c1 h2 Htok))).
    match goal with
    | |- context [match ?x with Some _ => _ | None => _ end] => destruct x
    end.
    + exists []. reflexivity.
    + destruct (uploadStage_without_delete w c1 localPath
                  (f (filepath.Base localPath)) actionParams
                  (h2 ++ [CallHTTP (deleteRequest c1 (f (filepath.Base localPath)))])%list)
        as (new & E & _).
      exists new. rewrite E, <- app_assoc. reflexivity.
Qed.

Lemma SaveAndShare_deletes_only_by_policy_witness :
  let url := "https://x/files/a.pdf" in
  let h1 := snd (DownloadToLocal worldPresent url 5 []) in
  let h2 := snd (GetResource worldPresent sampleClient "uploads/a.pdf" h1) in
  FilebrowserAuth.Validate sampleAuth = None
  /\ DownloadToLocal worldPresent url 5 [] = (Ok "/tmp/files/a.pdf", h1)
  /\ GetResource worldPresent (newClient sampleAuth)
       (sampleRemotePathFn (filepath.Base "/tmp/files/a.pdf")) h1
     = (Ok (remoteFile 100), authenticatedClient, h2)
  /\ exists rest : History,
       snd (SaveAndShare worldPresent sampleAuth url (Some sampleRemotePathFn)
              mismatchParams [])
       = (h2 ++ CallHTTP (deleteRequest authenticatedClient "uploads/a.pdf")
             :: rest)%list.
Proof.
  intros url h1 h2.
  assert (Hv : FilebrowserAuth.Validate sampleAuth = None) by reflexivity.
  assert (Hurl : url <> "") by discriminate.
  assert (Hd : DownloadToLocal worldPresent url
                 (ActionParams.FileSize mismatchParams) []
               = (Ok "/tmp/files/a.pdf", h1)) by reflexivity.
  assert (Hp : sampleRemotePathFn (filepath.Base "/tmp/files/a.pdf") <> "")
    by discriminate.
  assert (Hg : GetResource worldPresent (newClient sampleAuth)
                 (sampleRemotePathFn (filepath.Base "/tmp/files/a.pdf")) h1
               = (Ok (remoteFile 100), authenticatedClient, h2)) by reflexivity.
  split; [exact Hv | split; [exact Hd | split; [exact Hg |]]].
  refine (proj2 (SaveAndShare_deletes_only_by_policy worldPresent sampleAuth url
                   sampleRemotePathFn mismatchParams [] h1 h2 "/tmp/files/a.pdf"
                   (remoteFile 100) authenticatedClient Hv Hurl Hd Hp Hg)
            eq_refl _).
  right. split; [reflexivity | discriminate].
Defined.




(** ** Shares *)

(** X16.  Shares are not deduplicated: on a client that holds a token, two
    [Share] calls for the same path and parameters send two identical share
    requests, one after the other, and leave the client as it was. *)
Theorem Share_is_not_deduplicated
    (w : World) (c : Client.t) (remotePath : string) (expires : Z)
    (password unit : string) (h : History) :
  Client.Token c <> "" ->
  remotePath <> "" ->
  let body := if (0 <? expires)%Z
              then ReqShare.mk (itoa expires) password unit
              else ReqShare.zero in
  let request := CallHTTP (shareRequest c remotePath body) in
  runOps w [OpShare remotePath expires password unit;
            OpShare remotePath expires password unit] c h
  = (c, (h ++ [request; request])%list).
Proof.
  intros Hheld Hpath body request.
  cbn [runOps runOp]. unfold bind, ret.
  rewrite (Share_run w c c remotePath expires password unit h h Hpath
             (ensureAuthenticated_token_held w c h Hheld)).
  cbn [fst snd].
  rewrite (Share_run w c c remotePath expires password unit _ _ Hpath
             (ensureAuthenticated_token_held w c _ Hheld)).
  cbn [fst snd]. fold body. fold request.
  rewrite <- app_assoc. reflexivity.
Qed.

Lemma Share_is_not_deduplicated_witness :
  Client.Token authenticatedClient <> ""
  /\ "uploads/a.pdf" <> ""
  /\ runOps worldPresent [OpShare "uploads/a.pdf" 0 "pw" "hours";
                          OpShare "uploads/a.pdf" 0 "pw" "hours"]
            authenticatedClient []
     = (authenticatedClient,
        [CallHTTP (shareRequest authenticatedClient "uploads/a.pdf" ReqShare.zero);
         CallHTTP (shareRequest authenticatedClient "uploads/a.pdf" ReqShare.zero)]).
Proof.
  assert (Ht : Client.Token authenticatedClient <> "") by discriminate.
  assert (Hp : "uploads/a.pdf" <> "") by discriminate.
  split; [exact Ht | split; [exact Hp |]].
  exact (Share_is_not_deduplicated worldPresent authenticatedClient
           "uploads/a.pdf" 0 "pw" "hours" [] Ht Hp).
Defined.

(** X17.  [Share] returns a hash only when its request was answered with
    status 200 and the decoded answer holds a non-empty hash, which is the
    hash returned; the request is the last call of the history.  So any
    other status, also another 2xx one, and a 200 answer without a share
    identifier are failures. *)
Theorem Share_succeeds_only_on_200_with_hash
    (w : World) (c c' : Client.t) (remotePath : string) (expires : Z)
    (password unit : string) (h h' : History) (hash : string) :
  Share w c remotePath expires password unit h = (Ok hash, c', h') ->
  hash <> ""
  /\ exists (h0 : History) (body : ReqShare.t) (resp : Response.t)
            (result : RespShare.t),
       h' = (h0 ++ [CallHTTP (shareRequest c' remotePath body)])%list
       /\ httpDo w h0 (shareRequest c' remotePath body) = Ok resp
       /\ Response.StatusCode resp = 200%Z
       /\ unmarshalShare w resp = Ok result
       /\ RespShare.Hash result = hash.
Proof.
  destruct (String.eqb_spec remotePath "") as [-> | Hpath];
    [intros H; discriminate H |].
  destruct (ensureAuthenticated w c h) as [[ea c1] h1] eqn:Ha.
  destruct ea as [msg |].
  - unfold Share. rewrite (eqb_empty_false _ Hpath), (bind_run _ _ _ _ _ Ha).
    intros H; discriminate H.
  - rewrite (Share_run w c c1 remotePath expires password unit h h1 Hpath Ha).
    intros H. injection H as Hr <- <-.
    destruct (httpDo w h1 _) as [resp | msg] eqn:Hresp; [| discriminate Hr].
    destruct (isSuccessState resp); [| discriminate Hr].
    destruct (unmarshalShare w resp) as [result | msg] eqn:Hdec; [| discriminate Hr].
    destruct (Z.eqb_spec (Response.StatusCode resp) 200) as [E | N];
      cbn [negb] in Hr; [| discriminate Hr].
    destruct (String.eqb_spec (RespShare.Hash result) "") as [E0 | N0];
      [discriminate Hr |].
    injection Hr as <-.
    split; [exact N0 |].
    eexists h1, _, resp, result.
    split; [reflexivity |]. split; [exact Hresp |]. auto.
Qed.

Lemma Share_succeeds_only_on_200_with_hash_witness :
  let run := Share worldPresent authenticatedClient "uploads/a.pdf" 24 "" "hours" [] in
  run = (Ok "Ab3dE", authenticatedClient, snd run)
  /\ "Ab3dE" <> ""
  /\ exists (h0 : History) (body : ReqShare.t) (resp : Response.t)
            (result : RespShare.t),
       snd run = (h0 ++ [CallHTTP (shareRequest authenticatedClient
                                     "uploads/a.pdf" body)])%list
       /\ httpDo worldPresent h0 (shareRequest authenticatedClient "uploads/a.pdf" body)
          = Ok resp
       /\ Response.StatusCode resp = 200%Z
       /\ unmarshalShare worldPresent resp = Ok result
       /\ RespShare.Hash result = "Ab3dE".
Proof.
  intros run.
  assert (Hrun : run = (Ok "Ab3dE", authenticatedClient, snd run)) by reflexivity.
  split; [exact Hrun |].
  exact (Share_succeeds_only_on_200_with_hash worldPresent authenticatedClient
           authenticatedClient "uploads/a.pdf" 24 "" "hours" [] (snd run) "Ab3dE"
           Hrun).
Defined.

(** ** The path of a download *)

(** X18.  A successful [DownloadToLocal] returns exactly
    [LocalPathForDownload] of its URL, which is not empty, and the first
    thing it did was to create the directory of that path. *)
Theorem DownloadToLocal_returns_the_derived_path
    (w : World) (fileURL : string) (fileSize : Z) (h h' : History)
    (localPath : string) :
  DownloadToLocal w fileURL fileSize h = (Ok localPath, h') ->
  fileURL <> ""
  /\ localPath = LocalPathForDownload w fileURL
  /\ exists rest : History,
       h' = (h ++ CallCreateDir (filepath.Dir localPath) :: rest)%list.
Proof.
  unfold DownloadToLocal.
  destruct (String.eqb_spec fileURL "") as [E | Hurl]; [intros H; discriminate H |].
  pose proof (EnsureFolderForFile_run w (LocalPathForDownload w fileURL) h
                (LocalPathForDownload_not_empty w fileURL)) as Hdir.
  rewrite (bind_run _ _ _ _ _ Hdir).
  destruct (fileutilCreateDir w h _); [intros H; discriminate H |].
  unfold localCacheCheck, fileExistsWithSameSize, convertorToInt, bind, ret, call.
  cbn [fst snd].
  repeat match goal with
         | |- context [if ?b then _ else _] => destruct b; cbn [fst snd negb]
         | |- context [match ?x with _ => _ end] => destruct x; cbn [fst snd negb]
         end;
    intros H; try discriminate H; injection H as <- <-;
    (split; [exact Hurl | split; [reflexivity |]]);
    repeat rewrite <- app_assoc; eexists; reflexivity.
Qed.

Lemma DownloadToLocal_returns_the_derived_path_witness :
  let run := DownloadToLocal worldCached "https://x/files/a.pdf" 5 [] in
  run = (Ok "/tmp/files/a.pdf", snd run)
  /\ "https://x/files/a.pdf" <> ""
  /\ "/tmp/files/a.pdf" = LocalPathForDownload worldCached "https://x/files/a.pdf"
  /\ exists rest : History,
       snd run = ([] ++ CallCreateDir (filepath.Dir "/tmp/files/a.pdf") :: rest)%list.
Proof.
  intros run.
  assert (Hrun : run = (Ok "/tmp/files/a.pdf", snd run)) by reflexivity.
  split; [exact Hrun |].
  exact (DownloadToLocal_returns_the_derived_path worldCached
           "https://x/files/a.pdf" 5 [] (snd run) "/tmp/files/a.pdf" Hrun).
Defined.
